(** * Muse headband keyboard controller: the motion-to-key-event engine

    A shallow embedding of [muse_keyboard_controller.py].  The module-level
    variables of the script are the fields of one record, [globals]; every
    OSC handler is a computation in a small state-and-output monad that
    threads the globals and collects, in order, the calls made to the
    keyboard controller (and to [time.sleep]).  Console output ([print]) has
    no effect on the globals or on the keyboard and is left out.

    Sensor values are Python numbers.  The handlers only add, subtract,
    divide, negate, take absolute values and compare them, so the engine is
    written once over an interface of those operations ([PyNumber]) and
    instantiated twice: at the rationals [Q], where arithmetic is exact, and
    at binary64 floats, the values the OSC transport really delivers. *)

From Stdlib Require Import Bool List Arith ZArith QArith Qabs Lia Lqa.
From Stdlib Require Import Floats Uint63.
Import ListNotations.

Set Implicit Arguments.

(** ** Keys and keyboard actions *)

(** The members of [pynput.keyboard.Key] the script names. *)
Module Key.
Inductive t : Set := esc | space | up | down | left | right.

Definition eqb (a b : t) : bool :=
  match a, b with
  | esc, esc | space, space | up, up | down, down
  | left, left | right, right => true
  | _, _ => false
  end.
End Key.

(** What a handler does to the outside world, in program order:
    [keyboard.press], [keyboard.release] and [time.sleep]. *)
Inductive action (R : Type) : Type :=
| Press (k : Key.t)
| Release (k : Key.t)
| Sleep (seconds : R).

Arguments Press {R} k.
Arguments Release {R} k.
Arguments Sleep {R} seconds.

(** ** Python numbers *)

Class PyNumber (R : Type) : Type := {
  of_int : Z -> R;          (* an [int] literal, promoted where it meets a float *)
  of_decimal : Q -> R;      (* a decimal literal such as [0.05] *)
  add : R -> R -> R;
  sub : R -> R -> R;
  div : R -> R -> R;
  neg : R -> R;
  abs : R -> R;
  ltb : R -> R -> bool      (* [a < b] *)
}.

(** [a > b] is [b < a]. *)
Definition gtb {R} `{PyNumber R} (a b : R) : bool := ltb b a.

(** The builtin [sum]: start from [0] and add the items from left to right.
    (On floats recent interpreters also carry a correction term for the
    rounding of each addition; over [Q] there is no rounding to correct.) *)
Definition sum {R} `{PyNumber R} (xs : list R) : R :=
  fold_left add xs (of_int 0).

(** Exact arithmetic. *)
Definition Qltb (a b : Q) : bool := negb (Qle_bool b a).

#[export] Instance Q_number : PyNumber Q := {|
  of_int := inject_Z;
  of_decimal := fun q => q;
  add := Qplus;
  sub := Qminus;
  div := Qdiv;
  neg := Qopp;
  abs := Qabs;
  ltb := Qltb
|}.

(** IEEE 754 binary64, the representation of a Python [float]. *)
Definition float_of_Z (z : Z) : float :=
  if (z <? 0)%Z then PrimFloat.opp (PrimFloat.of_uint63 (Uint63.of_Z (- z)))
  else PrimFloat.of_uint63 (Uint63.of_Z z).

#[export] Instance float_number : PyNumber float := {|
  of_int := float_of_Z;
  of_decimal := fun q => PrimFloat.div (float_of_Z (Qnum q)) (float_of_Z (Zpos (Qden q)));
  add := PrimFloat.add;
  sub := PrimFloat.sub;
  div := PrimFloat.div;
  neg := PrimFloat.opp;
  abs := PrimFloat.abs;
  ltb := PrimFloat.ltb
|}.

(** ** Configuration *)

Inductive control_mode : Set := tilt | swivel | both.

Definition control_mode_eqb (a b : control_mode) : bool :=
  match a, b with
  | tilt, tilt | swivel, swivel | both, both => true
  | _, _ => false
  end.

(** Number of samples to average for calibration. *)
Definition CALIBRATION_SAMPLES : nat := 30.

Section Engine.

Context {R : Type} `{PyNumber R}.

(** Thresholds for detecting head movements. *)
Definition TILT_THRESHOLD : R := of_decimal 0.05.
Definition SWIVEL_THRESHOLD : R := of_int 100.
Definition SWIVEL_RELEASE_THRESHOLD : R := of_int 50.

(** ** The module's global variables *)

(** [calibration_data = {"acc_x": [], "acc_y": [], "gyro_z": []}]: a dict
    whose three keys are fixed, one list per key. *)
Record calibration_buffers : Type := {
  acc_x : list R;
  acc_y : list R;
  gyro_z : list R
}.

Record globals : Type := {
  osc_connected : bool;
  left_key_held : bool;
  right_key_held : bool;
  CONTROL_MODE : control_mode;
  calibrated : bool;
  baseline_acc_x : R;
  baseline_acc_y : R;
  baseline_gyro_z : R;
  calibration_data : calibration_buffers
}.

(** The globals as the module body leaves them, [CONTROL_MODE] being what
    [main] has made of it ([--mode], or the configured default). *)
Definition initial (mode : control_mode) : globals := {|
  osc_connected := false;
  left_key_held := false;
  right_key_held := false;
  CONTROL_MODE := mode;
  calibrated := false;
  baseline_acc_x := of_decimal 0;
  baseline_acc_y := of_decimal 0;
  baseline_gyro_z := of_decimal 0;
  calibration_data := {| acc_x := []; acc_y := []; gyro_z := [] |}
|}.

(** Assignments to single globals. *)
Definition set_osc_connected (b : bool) (g : globals) : globals :=
  {| osc_connected := b;
     left_key_held := left_key_held g;
     right_key_held := right_key_held g;
     CONTROL_MODE := CONTROL_MODE g;
     calibrated := calibrated g;
     baseline_acc_x := baseline_acc_x g;
     baseline_acc_y := baseline_acc_y g;
     baseline_gyro_z := baseline_gyro_z g;
     calibration_data := calibration_data g |}.

Definition set_left_key_held (b : bool) (g : globals) : globals :=
  {| osc_connected := osc_connected g;
     left_key_held := b;
     right_key_held := right_key_held g;
     CONTROL_MODE := CONTROL_MODE g;
     calibrated := calibrated g;
     baseline_acc_x := baseline_acc_x g;
     baseline_acc_y := baseline_acc_y g;
     baseline_gyro_z := baseline_gyro_z g;
     calibration_data := calibration_data g |}.

Definition set_right_key_held (b : bool) (g : globals) : globals :=
  {| osc_connected := osc_connected g;
     left_key_held := left_key_held g;
     right_key_held := b;
     CONTROL_MODE := CONTROL_MODE g;
     calibrated := calibrated g;
     baseline_acc_x := baseline_acc_x g;
     baseline_acc_y := baseline_acc_y g;
     baseline_gyro_z := baseline_gyro_z g;
     calibration_data := calibration_data g |}.

Definition set_calibrated (b : bool) (g : globals) : globals :=
  {| osc_connected := osc_connected g;
     left_key_held := left_key_held g;
     right_key_held := right_key_held g;
     CONTROL_MODE := CONTROL_MODE g;
     calibrated := b;
     baseline_acc_x := baseline_acc_x g;
     baseline_acc_y := baseline_acc_y g;
     baseline_gyro_z := baseline_gyro_z g;
     calibration_data := calibration_data g |}.

Definition set_baseline_acc_x (v : R) (g : globals) : globals :=
  {| osc_connected := osc_connected g;
     left_key_held := left_key_held g;
     right_key_held := right_key_held g;
     CONTROL_MODE := CONTROL_MODE g;
     calibrated := calibrated g;
     baseline_acc_x := v;
     baseline_acc_y := baseline_acc_y g;
     baseline_gyro_z := baseline_gyro_z g;
     calibration_data := calibration_data g |}.

Definition set_baseline_acc_y (v : R) (g : globals) : globals :=
  {| osc_connected := osc_connected g;
     left_key_held := left_key_held g;
     right_key_held := right_key_held g;
     CONTROL_MODE := CONTROL_MODE g;
     calibrated := calibrated g;
     baseline_acc_x := baseline_acc_x g;
     baseline_acc_y := v;
     baseline_gyro_z := baseline_gyro_z g;
     calibration_data := calibration_data g |}.

Definition set_baseline_gyro_z (v : R) (g : globals) : globals :=
  {| osc_connected := osc_connected g;
     left_key_held := left_key_held g;
     right_key_held := right_key_held g;
     CONTROL_MODE := CONTROL_MODE g;
     calibrated := calibrated g;
     baseline_acc_x := baseline_acc_x g;
     baseline_acc_y := baseline_acc_y g;
     baseline_gyro_z := v;
     calibration_data := calibration_data g |}.

Definition set_calibration_data (d : calibration_buffers) (g : globals)
  : globals :=
  {| osc_connected := osc_connected g;
     left_key_held := left_key_held g;
     right_key_held := right_key_held g;
     CONTROL_MODE := CONTROL_MODE g;
     calibrated := calibrated g;
     baseline_acc_x := baseline_acc_x g;
     baseline_acc_y := baseline_acc_y g;
     baseline_gyro_z := baseline_gyro_z g;
     calibration_data := d |}.

(** [calibration_data[key].append(v)] *)
Definition append_acc_x (v : R) (d : calibration_buffers) :=
  {| acc_x := acc_x d ++ [v]; acc_y := acc_y d; gyro_z := gyro_z d |}.
Definition append_acc_y (v : R) (d : calibration_buffers) :=
  {| acc_x := acc_x d; acc_y := acc_y d ++ [v]; gyro_z := gyro_z d |}.
Definition append_gyro_z (v : R) (d : calibration_buffers) :=
  {| acc_x := acc_x d; acc_y := acc_y d; gyro_z := gyro_z d ++ [v] |}.

(** ** Handlers as computations *)

(** A computation reads and writes the globals and appends to the log of
    keyboard actions. *)
Definition Eff (A : Type) : Type := globals -> A * globals * list (action R).

Definition ret {A} (a : A) : Eff A := fun g => (a, g, []).

Definition bind {A B} (m : Eff A) (k : A -> Eff B) : Eff B :=
  fun g =>
    let '(a, g1, out1) := m g in
    let '(b, g2, out2) := k a g1 in
    (b, g2, out1 ++ out2).

Definition gets {A} (f : globals -> A) : Eff A := fun g => (f g, g, []).
Definition modify (f : globals -> globals) : Eff unit := fun g => (tt, f g, []).
Definition emit (a : action R) : Eff unit := fun g => (tt, g, [a]).

(** The globals and the log a computation ends with. *)
Definition globals_after {A} (m : Eff A) (g : globals) : globals := snd (fst (m g)).
Definition emitted {A} (m : Eff A) (g : globals) : list (action R) := snd (m g).

End Engine.

Arguments globals R : clear implicits.
Arguments calibration_buffers R : clear implicits.
Arguments Eff R A : clear implicits.

Declare Scope eff_scope.
Delimit Scope eff_scope with eff.
Notation "x <- m ;; k" := (bind m (fun x => k))
  (at level 61, m at next level, right associativity) : eff_scope.
Notation "m ;; k" := (bind m (fun _ => k))
  (at level 61, right associativity) : eff_scope.
Open Scope eff_scope.

(** [if c: body] with no [else]. *)
Definition when {R} (c : bool) (body : Eff R unit) : Eff R unit :=
  if c then body else ret tt.

Module keyboard.
Definition press {R} (k : Key.t) : Eff R unit := emit (Press k).
Definition release {R} (k : Key.t) : Eff R unit := emit (Release k).
End keyboard.

Module time.
Definition sleep {R} (seconds : R) : Eff R unit := emit (Sleep seconds).
End time.

Section Handlers.

Context {R : Type} `{PyNumber R}.

(** Monitors any incoming OSC message to verify connection. *)
Definition connection_monitor : Eff R unit :=
  connected <- gets osc_connected ;;
  when (negb connected) (modify (set_osc_connected true)).

(** Collects accelerometer data for calibration. *)
Definition calibration_acc_handler (x y z : R) : Eff R unit :=
  done <- gets calibrated ;;
  data <- gets calibration_data ;;
  when (negb done && (length (acc_x data) <? CALIBRATION_SAMPLES)%nat)
    (modify (fun g => set_calibration_data (append_acc_x x (calibration_data g)) g) ;;
     modify (fun g => set_calibration_data (append_acc_y y (calibration_data g)) g) ;;
     data <- gets calibration_data ;;
     when (length (acc_x data) =? CALIBRATION_SAMPLES)%nat
       (modify (set_baseline_acc_x
                  (div (sum (acc_x data)) (of_int (Z.of_nat CALIBRATION_SAMPLES)))) ;;
        modify (set_baseline_acc_y
                  (div (sum (acc_y data)) (of_int (Z.of_nat CALIBRATION_SAMPLES)))) ;;
        when (length (gyro_z data) =? CALIBRATION_SAMPLES)%nat
          (modify (set_calibrated true)))).

(** Collects gyroscope data for calibration. *)
Definition calibration_gyro_handler (x y z : R) : Eff R unit :=
  done <- gets calibrated ;;
  data <- gets calibration_data ;;
  when (negb done && (length (gyro_z data) <? CALIBRATION_SAMPLES)%nat)
    (modify (fun g => set_calibration_data (append_gyro_z z (calibration_data g)) g) ;;
     data <- gets calibration_data ;;
     when (length (gyro_z data) =? CALIBRATION_SAMPLES)%nat
       (modify (set_baseline_gyro_z
                  (div (sum (gyro_z data)) (of_int (Z.of_nat CALIBRATION_SAMPLES)))) ;;
        when (length (acc_x data) =? CALIBRATION_SAMPLES)%nat
          (modify (set_calibrated true)))).

(** Debug: prints blink and jaw clench messages, and does nothing else. *)
Definition debug_handler : Eff R unit := ret tt.

(** Handles blink events by sending a space bar key press.  [blink] is the
    truth value of the message's argument. *)
Definition blink_handler (blink : bool) : Eff R unit :=
  when blink
    (keyboard.press Key.space ;;
     time.sleep (of_decimal 0.1) ;;
     keyboard.release Key.space).

(** Handles jaw clench events by sending an up arrow key press. *)
Definition jaw_clench_handler (jaw_clench : bool) : Eff R unit :=
  when jaw_clench
    (keyboard.press Key.up ;;
     keyboard.release Key.up).

(** Handles accelerometer data for head tilt detection. *)
Definition accelerometer_handler (x y z : R) : Eff R unit :=
  mode <- gets CONTROL_MODE ;;
  if control_mode_eqb mode swivel then ret tt else
  done <- gets calibrated ;;
  if negb done then ret tt else
  rel_x <- gets (fun g => sub x (baseline_acc_x g)) ;;
  rel_y <- gets (fun g => sub y (baseline_acc_y g)) ;;
  if ltb rel_y (neg TILT_THRESHOLD) then
    keyboard.press Key.left
  else if gtb rel_y TILT_THRESHOLD then
    keyboard.press Key.right
  else
    (keyboard.release Key.left ;;
     keyboard.release Key.right).

(** Handles gyroscope data for head swivel (yaw) detection.  Keys are held
    down until the head returns to center. *)
Definition gyroscope_handler (x y z : R) : Eff R unit :=
  mode <- gets CONTROL_MODE ;;
  if control_mode_eqb mode tilt then ret tt else
  done <- gets calibrated ;;
  if negb done then ret tt else
  rel_z <- gets (fun g => sub z (baseline_gyro_z g)) ;;
  if ltb rel_z (neg SWIVEL_THRESHOLD) then
    (held <- gets left_key_held ;;
     when (negb held)
       (keyboard.press Key.left ;;
        modify (set_left_key_held true))) ;;
    (held <- gets right_key_held ;;
     when held
       (keyboard.release Key.right ;;
        modify (set_right_key_held false)))
  else if gtb rel_z SWIVEL_THRESHOLD then
    (held <- gets right_key_held ;;
     when (negb held)
       (keyboard.press Key.right ;;
        modify (set_right_key_held true))) ;;
    (held <- gets left_key_held ;;
     when held
       (keyboard.release Key.left ;;
        modify (set_left_key_held false)))
  else if ltb (abs rel_z) SWIVEL_RELEASE_THRESHOLD then
    (held <- gets left_key_held ;;
     when held
       (keyboard.release Key.left ;;
        modify (set_left_key_held false))) ;;
    (held <- gets right_key_held ;;
     when held
       (keyboard.release Key.right ;;
        modify (set_right_key_held false)))
  else ret tt.

(** ** The dispatcher *)

(** The messages [start_osc] maps handlers for.  [Muse_other] is any other
    address under [/muse/]. *)
Inductive message : Type :=
| Muse_acc (x y z : R)
| Muse_gyro (x y z : R)
| Muse_blink (blink : bool)
| Muse_jaw_clench (jaw_clench : bool)
| Muse_other.

(** One message runs every handler whose pattern matches its address, in
    the order [start_osc] mapped them. *)
Definition dispatch (m : message) : Eff R unit :=
  match m with
  | Muse_acc x y z =>
      connection_monitor ;; debug_handler ;;
      calibration_acc_handler x y z ;; accelerometer_handler x y z
  | Muse_gyro x y z =>
      connection_monitor ;; debug_handler ;;
      calibration_gyro_handler x y z ;; gyroscope_handler x y z
  | Muse_blink blink =>
      connection_monitor ;; debug_handler ;; blink_handler blink
  | Muse_jaw_clench jaw_clench =>
      connection_monitor ;; debug_handler ;; jaw_clench_handler jaw_clench
  | Muse_other =>
      connection_monitor ;; debug_handler
  end.

(** Messages are handled one after the other, in arrival order: a handler
    runs to its end before the next message is looked at. *)
Fixpoint serve (ms : list message) : Eff R unit :=
  match ms with
  | [] => ret tt
  | m :: rest => dispatch m ;; serve rest
  end.

(** The globals after each message of [ms], the starting ones first. *)
Fixpoint globals_along (ms : list message) (g : globals R) : list (globals R) :=
  g :: match ms with
       | [] => []
       | m :: rest => globals_along rest (globals_after (dispatch m) g)
       end.

End Handlers.

Arguments message R : clear implicits.

(** ** Termination: the key listener and [main] *)

Inductive exn : Set :=
| SystemExit (code : Z)
| KeyboardInterrupt.

(** How a Python call ends. *)
Inductive outcome (A : Type) : Type :=
| Returned (a : A)
| Raised (e : exn).

Arguments Returned {A} a.
Arguments Raised {A} e.

Module sys.
Definition exit {R} (code : Z) : Eff R (outcome unit) :=
  ret (Raised (SystemExit code)).
End sys.

(** [try: body / except: pass]: a bare [except] catches every exception,
    [SystemExit] included. *)
Definition try_except_pass {R} (body : Eff R (outcome unit)) : Eff R (outcome unit) :=
  r <- body ;;
  match r with
  | Returned a => ret (Returned a)
  | Raised _ => ret (Returned tt)
  end.

(** What happens to the running process: an OSC message arrives, the key
    listener sees a key go down, or the user interrupts (Ctrl+C). *)
Inductive stimulus (R : Type) : Type :=
| Osc (m : message R)
| Key_pressed (key : Key.t)
| Interrupt.

Arguments Osc {R} m.
Arguments Key_pressed {R} key.
Arguments Interrupt {R}.

Inductive process_status : Set := Serving | Exited.

Section Main.

Context {R : Type} `{PyNumber R}.

(** Handle keyboard input - stop program on ESC. *)
Definition on_key_press (key : Key.t) : Eff R (outcome unit) :=
  try_except_pass
    (if Key.eqb key Key.esc then sys.exit 0 else ret (Returned tt)).

(** [start_osc]: [server.serve_forever()] with the listener running beside
    it.  It only ends by the [KeyboardInterrupt] raised in it; messages and
    keys that come later are never looked at. *)
Fixpoint start_osc (inputs : list (stimulus R)) : Eff R (outcome process_status) :=
  match inputs with
  | [] => ret (Returned Serving)
  | Osc m :: rest => dispatch m ;; start_osc rest
  | Key_pressed key :: rest => on_key_press key ;; start_osc rest
  | Interrupt :: _ => ret (Raised KeyboardInterrupt)
  end.

(** [main], from [listener.start()] on: [except KeyboardInterrupt] prints,
    [finally] stops the listener, and the process exits. *)
Definition main (inputs : list (stimulus R)) : Eff R (outcome process_status) :=
  r <- start_osc inputs ;;
  match r with
  | Raised KeyboardInterrupt => ret (Returned Exited)
  | other => ret other
  end.

(** The OSC messages handled before the first interrupt. *)
Fixpoint handled (inputs : list (stimulus R)) : list (message R) :=
  match inputs with
  | [] => []
  | Osc m :: rest => m :: handled rest
  | Key_pressed _ :: rest => handled rest
  | Interrupt :: _ => []
  end.

End Main.

(** ** Vocabulary of the specification *)

(** The swivel detector's states. *)
Inductive swivel_state : Set := Centered | HoldingLeft | HoldingRight.

(** The state the two held-key flags stand for; both flags set stands for
    none. *)
Definition swivel_state_of {R} (g : globals R) : option swivel_state :=
  match left_key_held g, right_key_held g with
  | false, false => Some Centered
  | true, false => Some HoldingLeft
  | false, true => Some HoldingRight
  | true, true => None
  end.

(** The arithmetic mean of [CALIBRATION_SAMPLES] values. *)
Definition mean {R} `{PyNumber R} (xs : list R) : R :=
  div (sum xs) (of_int (Z.of_nat CALIBRATION_SAMPLES)).

(** How often a flag goes from [false] to [true], and from [true] to
    [false], along a sequence of its values. *)
Fixpoint rises (bs : list bool) : nat :=
  match bs with
  | b :: (b' :: _) as rest => (if negb b && b' then 1 else 0) + rises rest
  | _ => 0
  end.

Fixpoint falls (bs : list bool) : nat :=
  match bs with
  | b :: (b' :: _) as rest => (if b && negb b' then 1 else 0) + falls rest
  | _ => 0
  end.

(** The samples of each sensor among the messages, in arrival order. *)
Definition acc_xs {R} (ms : list (message R)) : list R :=
  flat_map (fun m => match m with Muse_acc x _ _ => [x] | _ => [] end) ms.
Definition acc_ys {R} (ms : list (message R)) : list R :=
  flat_map (fun m => match m with Muse_acc _ y _ => [y] | _ => [] end) ms.
Definition gyro_zs {R} (ms : list (message R)) : list R :=
  flat_map (fun m => match m with Muse_gyro _ _ z => [z] | _ => [] end) ms.

(** Key presses and releases in a log (everything but the pauses). *)
Definition is_key_event {R} (a : action R) : bool :=
  match a with Press _ | Release _ => true | Sleep _ => false end.

(** ** Test runs *)

(** Thirty accelerometer and thirty gyroscope samples at rest. *)
Definition at_rest {R} `{PyNumber R} : list (message R) :=
  repeat (Muse_acc (of_int 0) (of_int 0) (of_int 1)) CALIBRATION_SAMPLES
  ++ repeat (Muse_gyro (of_int 0) (of_int 0) (of_int 0)) CALIBRATION_SAMPLES.

Definition yaw {R} `{PyNumber R} (z : Z) : message R :=
  Muse_gyro (of_int 0) (of_int 0) (of_int z).

Definition roll {R} `{PyNumber R} (y : Q) : message R :=
  Muse_acc (of_int 0) (of_decimal y) (of_int 1).

(** The globals once calibration at rest is complete: every baseline is
    zero and no key is held. *)
Definition rested R `{PyNumber R} (mode : control_mode) : globals R :=
  globals_after (serve at_rest) (initial mode).

Arguments rested R {_} mode.

(** The globals of a calibrated run in which the head has swivelled right,
    so that the right arrow is held. *)
Definition holding_right R `{PyNumber R} (mode : control_mode) : globals R :=
  globals_after (dispatch (yaw 120)) (rested R mode).

Arguments holding_right R {_} mode.

(** Thirty samples of each sensor, alternating, with readings that differ. *)
Definition warm_up : list (message Q) :=
  flat_map (fun n => [Muse_acc (inject_Z n) (inject_Z (2 * n)) 1;
                      Muse_gyro 0 0 (inject_Z (3 * n))])
           (map Z.of_nat (seq 1 CALIBRATION_SAMPLES)).

(** What a handler may leave alone: the held-key flags, the calibration
    record, the control mode. *)
Definition same_hold {R} (g g' : globals R) : Prop :=
  left_key_held g' = left_key_held g /\ right_key_held g' = right_key_held g.

Definition same_calibration {R} (g g' : globals R) : Prop :=
  calibrated g' = calibrated g /\
  baseline_acc_x g' = baseline_acc_x g /\
  baseline_acc_y g' = baseline_acc_y g /\
  baseline_gyro_z g' = baseline_gyro_z g /\
  calibration_data g' = calibration_data g.

Definition same_mode {R} (g g' : globals R) : Prop :=
  CONTROL_MODE g' = CONTROL_MODE g.

(** The two motion detectors and their handlers. *)
Inductive detector : Set := Tilt_detector | Swivel_detector.

Definition detector_handler {R} `{PyNumber R} (d : detector) : R -> R -> R -> Eff R unit :=
  match d with
  | Tilt_detector => accelerometer_handler
  | Swivel_detector => gyroscope_handler
  end.

(** The tilt detector is active in modes tilt and both, the swivel detector
    in modes swivel and both, and each only once calibration is complete. *)
Definition mode_enables (mode : control_mode) (d : detector) : bool :=
  match d, mode with
  | Tilt_detector, (tilt | both) => true
  | Swivel_detector, (swivel | both) => true
  | _, _ => false
  end.

Definition detector_active {R} (d : detector) (g : globals R) : bool :=
  mode_enables (CONTROL_MODE g) d && calibrated g.

(** What each message of [ms] makes the handlers emit, message by message. *)
Fixpoint emitted_along {R} `{PyNumber R} (ms : list (message R)) (g : globals R)
  : list (list (action R)) :=
  match ms with
  | [] => []
  | m :: rest =>
      emitted (dispatch m) g :: emitted_along rest (globals_after (dispatch m) g)
  end.

(** [a] comes before [b] in a log. *)
Definition precedes {A} (a b : A) (log : list A) : Prop :=
  exists l1 l2 l3, log = l1 ++ a :: l2 ++ b :: l3.

(** The calibration part of the globals as the message history [ms]
    determines it: each buffer holds the first [CALIBRATION_SAMPLES] values of
    its sensor; a baseline is the mean of its buffer once the buffer is full,
    and the initial [0.0] before; [calibrated] says that both buffers are
    full. *)
Definition calibration_follows {R} `{PyNumber R}
  (ms : list (message R)) (g : globals R) : Prop :=
  acc_x (calibration_data g) = firstn CALIBRATION_SAMPLES (acc_xs ms)
  /\ acc_y (calibration_data g) = firstn CALIBRATION_SAMPLES (acc_ys ms)
  /\ gyro_z (calibration_data g) = firstn CALIBRATION_SAMPLES (gyro_zs ms)
  /\ calibrated g
     = (CALIBRATION_SAMPLES <=? length (acc_xs ms))%nat
       && (CALIBRATION_SAMPLES <=? length (gyro_zs ms))%nat
  /\ baseline_acc_x g
     = (if (CALIBRATION_SAMPLES <=? length (acc_xs ms))%nat
        then mean (firstn CALIBRATION_SAMPLES (acc_xs ms)) else of_decimal 0)
  /\ baseline_acc_y g
     = (if (CALIBRATION_SAMPLES <=? length (acc_xs ms))%nat
        then mean (firstn CALIBRATION_SAMPLES (acc_ys ms)) else of_decimal 0)
  /\ baseline_gyro_z g
     = (if (CALIBRATION_SAMPLES <=? length (gyro_zs ms))%nat
        then mean (firstn CALIBRATION_SAMPLES (gyro_zs ms)) else of_decimal 0).

(** The accelerometer half and the gyroscope half of the calibration. *)
Definition same_acc_calibration {R} (g g' : globals R) : Prop :=
  acc_x (calibration_data g') = acc_x (calibration_data g)
  /\ acc_y (calibration_data g') = acc_y (calibration_data g)
  /\ baseline_acc_x g' = baseline_acc_x g
  /\ baseline_acc_y g' = baseline_acc_y g.

Definition same_gyro_calibration {R} (g g' : globals R) : Prop :=
  gyro_z (calibration_data g') = gyro_z (calibration_data g)
  /\ baseline_gyro_z g' = baseline_gyro_z g.

(** The zones the thresholds cut the number line into do not overlap: right
    of the threshold is not left of its negation; inside the release
    threshold, or inside the engage threshold, is not beyond the engage
    threshold; and at or beyond the release threshold is not inside it.
    [leb] is [<=], which the handlers never use and the dead band is stated
    with. *)
Record zones_disjoint {R} `{PyNumber R} (leb : R -> R -> bool) : Prop := {
  tilt_right_not_left : forall r,
    gtb r TILT_THRESHOLD = true -> ltb r (neg TILT_THRESHOLD) = false;
  swivel_right_not_left : forall r,
    gtb r SWIVEL_THRESHOLD = true -> ltb r (neg SWIVEL_THRESHOLD) = false;
  centre_not_engaged : forall r,
    ltb (abs r) SWIVEL_RELEASE_THRESHOLD = true ->
    ltb r (neg SWIVEL_THRESHOLD) = false /\ gtb r SWIVEL_THRESHOLD = false;
  dead_band_not_engaged : forall r,
    leb (abs r) SWIVEL_THRESHOLD = true ->
    ltb r (neg SWIVEL_THRESHOLD) = false /\ gtb r SWIVEL_THRESHOLD = false;
  dead_band_not_centre : forall r,
    leb SWIVEL_RELEASE_THRESHOLD (abs r) = true ->
    ltb (abs r) SWIVEL_RELEASE_THRESHOLD = false
}.

(** The tilt policy: with [rel_y = y - baseline_acc_y], an accelerometer
    message makes an active tilt detector press left when
    [rel_y < -TILT_THRESHOLD], press right when [rel_y > TILT_THRESHOLD], and
    release left and right otherwise. *)
Definition tilt_policy R `{PyNumber R} : Prop :=
  forall (g : globals R) (x y z : R),
    detector_active Tilt_detector g = true ->
    let rel_y := sub y (baseline_acc_y g) in
    let out := emitted (dispatch (Muse_acc x y z)) g in
    (ltb rel_y (neg TILT_THRESHOLD) = true -> out = [Press Key.left])
    /\ (gtb rel_y TILT_THRESHOLD = true -> out = [Press Key.right])
    /\ (ltb rel_y (neg TILT_THRESHOLD) = false ->
        gtb rel_y TILT_THRESHOLD = false ->
        out = [Release Key.left; Release Key.right]).

Arguments tilt_policy R {_}.

(** The three-zone hysteresis policy: with [rel_z = z - baseline_gyro_z], a
    gyroscope message takes an active swivel detector to [HoldingLeft] when
    [rel_z < -SWIVEL_THRESHOLD], to [HoldingRight] when
    [rel_z > SWIVEL_THRESHOLD], to [Centered] when
    [|rel_z| < SWIVEL_RELEASE_THRESHOLD], and in the dead band
    [SWIVEL_RELEASE_THRESHOLD <= |rel_z| <= SWIVEL_THRESHOLD] leaves the held
    keys as they are and emits nothing. *)
Definition swivel_policy R `{PyNumber R} (leb : R -> R -> bool) : Prop :=
  forall (g : globals R) (x y z : R),
    detector_active Swivel_detector g = true ->
    let rel_z := sub z (baseline_gyro_z g) in
    let g' := globals_after (dispatch (Muse_gyro x y z)) g in
    (ltb rel_z (neg SWIVEL_THRESHOLD) = true ->
     swivel_state_of g' = Some HoldingLeft)
    /\ (gtb rel_z SWIVEL_THRESHOLD = true ->
        swivel_state_of g' = Some HoldingRight)
    /\ (ltb (abs rel_z) SWIVEL_RELEASE_THRESHOLD = true ->
        swivel_state_of g' = Some Centered)
    /\ (leb SWIVEL_RELEASE_THRESHOLD (abs rel_z) = true ->
        leb (abs rel_z) SWIVEL_THRESHOLD = true ->
        same_hold g g' /\ emitted (dispatch (Muse_gyro x y z)) g = []).

Arguments swivel_policy R {_} leb.

(** A swivel straight from one side to the other: the key of the new side is
    pressed, then the key of the old side is released. *)
Definition swivel_reversal R `{PyNumber R} : Prop :=
  forall (g : globals R) (x y z : R),
    detector_active Swivel_detector g = true ->
    let rel_z := sub z (baseline_gyro_z g) in
    let out := emitted (dispatch (Muse_gyro x y z)) g in
    (ltb rel_z (neg SWIVEL_THRESHOLD) = true ->
     left_key_held g = false -> right_key_held g = true ->
     out = [Press Key.left; Release Key.right])
    /\ (gtb rel_z SWIVEL_THRESHOLD = true ->
        left_key_held g = true -> right_key_held g = false ->
        out = [Press Key.right; Release Key.left]).

Arguments swivel_reversal R {_}.

(** Whether an interrupt is among the inputs. *)
Definition interrupted {R} (inputs : list (stimulus R)) : bool :=
  existsb (fun i => match i with Interrupt => true | _ => false end) inputs.

(** ** The keyboard as the log leaves it *)

(** Whether key [k] is down after the actions of [log], given whether it was
    down before. *)
Fixpoint key_state {R} (k : Key.t) (down : bool) (log : list (action R)) : bool :=
  match log with
  | [] => down
  | Press k' :: rest => key_state k (if Key.eqb k k' then true else down) rest
  | Release k' :: rest => key_state k (if Key.eqb k k' then false else down) rest
  | Sleep _ :: rest => key_state k down rest
  end.



(** What the globals say of key [k]: the swivel detector's flags for the two
    arrows it holds, and nothing for the other keys. *)
Definition held_flag {R} (k : Key.t) (g : globals R) : bool :=
  match k with
  | Key.left => left_key_held g
  | Key.right => right_key_held g
  | _ => false
  end.

(** The key an action is about, if any. *)
Definition key_of {R} (a : action R) : option Key.t :=
  match a with
  | Press k | Release k => Some k
  | Sleep _ => None
  end.

Definition is_arrow_event {R} (a : action R) : bool :=
  match key_of a with
  | Some Key.left | Some Key.right => true
  | _ => false
  end.

(** ** Start-up *)

(** [main] overrides the configured [CONTROL_MODE = "tilt"] when [--mode] is
    given ([args.mode is not None]). *)
Definition configure (mode_arg : option control_mode) : control_mode :=
  match mode_arg with
  | Some mode => mode
  | None => tilt
  end.

(** Gyroscope messages. *)
Definition is_gyro {R} (m : message R) : bool :=
  match m with Muse_gyro _ _ _ => true | _ => false end.

(** The inputs that are not key presses. *)
Definition without_keys {R} (inputs : list (stimulus R)) : list (stimulus R) :=
  filter (fun i => match i with Key_pressed _ => false | _ => true end) inputs.

(** * Properties *)

(** ** Running computations *)

Ltac eff_unfold :=
  cbv [bind ret gets modify emit when keyboard.press keyboard.release
       time.sleep sys.exit try_except_pass globals_after emitted fst snd];
  cbn [negb andb app
       osc_connected left_key_held right_key_held CONTROL_MODE calibrated
       baseline_acc_x baseline_acc_y baseline_gyro_z calibration_data
       acc_x acc_y gyro_z
       set_osc_connected set_left_key_held set_right_key_held set_calibrated
       set_baseline_acc_x set_baseline_acc_y set_baseline_gyro_z
       set_calibration_data append_acc_x append_acc_y append_gyro_z].

Ltac split_if :=
  match goal with
  | |- context [if ?c then _ else _] => destruct c eqn:?
  end.

Ltac split_ifs := repeat (eff_unfold; split_if); eff_unfold.

Section Running.

Context {R : Type} `{PyNumber R}.

Lemma globals_after_bind A B (m : Eff R A) (k : A -> Eff R B) g :
  globals_after (bind m k) g = globals_after (k (fst (fst (m g)))) (globals_after m g).
Proof.
  unfold globals_after, bind.
  destruct (m g) as [[a g1] out1]; cbn [fst snd].
  destruct (k a g1) as [[b g2] out2]; reflexivity.
Qed.

Lemma emitted_bind A B (m : Eff R A) (k : A -> Eff R B) g :
  emitted (bind m k) g = emitted m g ++ emitted (k (fst (fst (m g)))) (globals_after m g).
Proof.
  unfold emitted, globals_after, bind.
  destruct (m g) as [[a g1] out1]; cbn [fst snd].
  destruct (k a g1) as [[b g2] out2]; reflexivity.
Qed.

Lemma globals_after_serve_cons m ms g :
  globals_after (serve (m :: ms)) g
  = globals_after (serve ms) (globals_after (dispatch m) g).
Proof. cbn [serve]. apply globals_after_bind. Qed.

Lemma emitted_serve_cons m ms g :
  emitted (serve (m :: ms)) g
  = emitted (dispatch m) g ++ emitted (serve ms) (globals_after (dispatch m) g).
Proof. cbn [serve]. apply emitted_bind. Qed.

Lemma globals_after_serve_app ms1 ms2 g :
  globals_after (serve (ms1 ++ ms2)) g
  = globals_after (serve ms2) (globals_after (serve ms1) g).
Proof.
  revert g; induction ms1 as [|m ms1 IH]; intro g; [reflexivity|].
  rewrite <- app_comm_cons, !globals_after_serve_cons. apply IH.
Qed.

Lemma emitted_serve_app ms1 ms2 g :
  emitted (serve (ms1 ++ ms2)) g
  = emitted (serve ms1) g ++ emitted (serve ms2) (globals_after (serve ms1) g).
Proof.
  revert g; induction ms1 as [|m ms1 IH]; intro g; [reflexivity|].
  rewrite <- app_comm_cons, !emitted_serve_cons, globals_after_serve_cons, IH.
  apply app_assoc.
Qed.

Lemma globals_along_last ms g d :
  last (globals_along ms g) d = globals_after (serve ms) g.
Proof.
  revert g; induction ms as [|m ms IH]; intro g; [reflexivity|].
  rewrite globals_after_serve_cons, <- IH.
  cbn [globals_along]. destruct ms; reflexivity.
Qed.

End Running.

(** ** What each handler leaves alone *)

Section Frames.

Context {R : Type} `{PyNumber R}.

Lemma same_hold_refl (g : globals R) : same_hold g g.
Proof. split; reflexivity. Qed.

Lemma same_hold_trans (g1 g2 g3 : globals R) :
  same_hold g1 g2 -> same_hold g2 g3 -> same_hold g1 g3.
Proof. intros [A B] [C D]; split; congruence. Qed.

Lemma same_calibration_refl (g : globals R) : same_calibration g g.
Proof. repeat split. Qed.

Lemma same_calibration_trans (g1 g2 g3 : globals R) :
  same_calibration g1 g2 -> same_calibration g2 g3 -> same_calibration g1 g3.
Proof.
  intros (A1 & A2 & A3 & A4 & A5) (B1 & B2 & B3 & B4 & B5).
  repeat split; congruence.
Qed.

Lemma connection_monitor_frame (g : globals R) :
  emitted connection_monitor g = []
  /\ same_hold g (globals_after connection_monitor g)
  /\ same_calibration g (globals_after connection_monitor g)
  /\ same_mode g (globals_after connection_monitor g).
Proof.
  unfold connection_monitor; eff_unfold.
  destruct (osc_connected g); repeat split.
Qed.

Lemma debug_handler_frame (g : globals R) :
  emitted debug_handler g = [] /\ globals_after debug_handler g = g.
Proof. split; reflexivity. Qed.

Lemma calibration_acc_handler_frame x y z (g : globals R) :
  emitted (calibration_acc_handler x y z) g = []
  /\ same_hold g (globals_after (calibration_acc_handler x y z) g)
  /\ same_mode g (globals_after (calibration_acc_handler x y z) g).
Proof.
  unfold calibration_acc_handler; eff_unfold.
  split_ifs; repeat split.
Qed.

Lemma calibration_gyro_handler_frame x y z (g : globals R) :
  emitted (calibration_gyro_handler x y z) g = []
  /\ same_hold g (globals_after (calibration_gyro_handler x y z) g)
  /\ same_mode g (globals_after (calibration_gyro_handler x y z) g).
Proof.
  unfold calibration_gyro_handler; eff_unfold.
  split_ifs; repeat split.
Qed.

Lemma blink_handler_globals blink (g : globals R) :
  globals_after (blink_handler blink) g = g.
Proof. destruct blink; reflexivity. Qed.

Lemma jaw_clench_handler_globals jaw_clench (g : globals R) :
  globals_after (jaw_clench_handler jaw_clench) g = g.
Proof. destruct jaw_clench; reflexivity. Qed.

Lemma accelerometer_handler_globals x y z (g : globals R) :
  globals_after (accelerometer_handler x y z) g = g.
Proof.
  unfold accelerometer_handler; eff_unfold.
  split_ifs; reflexivity.
Qed.

Lemma gyroscope_handler_frame x y z (g : globals R) :
  same_calibration g (globals_after (gyroscope_handler x y z) g)
  /\ same_mode g (globals_after (gyroscope_handler x y z) g).
Proof.
  unfold gyroscope_handler; eff_unfold.
  split_ifs; repeat split.
Qed.

(** The held-key flags after one gyroscope sample never both stand. *)
Lemma gyroscope_handler_exclusive x y z (g : globals R) :
  left_key_held g && right_key_held g = false ->
  left_key_held (globals_after (gyroscope_handler x y z) g)
  && right_key_held (globals_after (gyroscope_handler x y z) g) = false.
Proof.
  destruct g as [o [] [] m c bx by_ bz d]; cbn [left_key_held right_key_held];
    try discriminate; intros _;
    unfold gyroscope_handler; split_ifs; reflexivity.
Qed.

End Frames.

(** ** One message through the dispatcher *)

Section Dispatch.

Context {R : Type} `{PyNumber R}.

Lemma connection_monitor_emitted (g : globals R) :
  emitted connection_monitor g = [].
Proof. apply connection_monitor_frame. Qed.

Lemma dispatch_acc_globals x y z (g : globals R) :
  globals_after (dispatch (Muse_acc x y z)) g
  = globals_after (calibration_acc_handler x y z)
      (globals_after connection_monitor g).
Proof.
  cbn [dispatch]. rewrite !globals_after_bind.
  now rewrite accelerometer_handler_globals.
Qed.

Lemma dispatch_acc_emitted x y z (g : globals R) :
  emitted (dispatch (Muse_acc x y z)) g
  = emitted (accelerometer_handler x y z)
      (globals_after (dispatch (Muse_acc x y z)) g).
Proof.
  rewrite dispatch_acc_globals.
  cbn [dispatch]. rewrite !emitted_bind, ?globals_after_bind.
  rewrite connection_monitor_emitted.
  now rewrite (proj1 (calibration_acc_handler_frame _ _ _ _)).
Qed.

Lemma dispatch_gyro_globals x y z (g : globals R) :
  globals_after (dispatch (Muse_gyro x y z)) g
  = globals_after (gyroscope_handler x y z)
      (globals_after (calibration_gyro_handler x y z)
         (globals_after connection_monitor g)).
Proof. cbn [dispatch]. now rewrite !globals_after_bind. Qed.

Lemma dispatch_gyro_emitted x y z (g : globals R) :
  emitted (dispatch (Muse_gyro x y z)) g
  = emitted (gyroscope_handler x y z)
      (globals_after (calibration_gyro_handler x y z)
         (globals_after connection_monitor g)).
Proof.
  cbn [dispatch]. rewrite !emitted_bind, ?globals_after_bind.
  rewrite connection_monitor_emitted.
  now rewrite (proj1 (calibration_gyro_handler_frame _ _ _ _)).
Qed.

Lemma dispatch_blink_globals blink (g : globals R) :
  globals_after (dispatch (Muse_blink blink)) g
  = globals_after connection_monitor g.
Proof.
  cbn [dispatch]. rewrite !globals_after_bind.
  now rewrite blink_handler_globals.
Qed.

Lemma dispatch_jaw_clench_globals jaw_clench (g : globals R) :
  globals_after (dispatch (Muse_jaw_clench jaw_clench)) g
  = globals_after connection_monitor g.
Proof.
  cbn [dispatch]. rewrite !globals_after_bind.
  now rewrite jaw_clench_handler_globals.
Qed.

Lemma dispatch_other_globals (g : globals R) :
  globals_after (dispatch Muse_other) g = globals_after connection_monitor g.
Proof. cbn [dispatch]. now rewrite !globals_after_bind. Qed.

(** No handler but the gyroscope's writes the held-key flags, and that one
    keeps them apart. *)
Lemma dispatch_exclusive m (g : globals R) :
  left_key_held g && right_key_held g = false ->
  left_key_held (globals_after (dispatch m) g)
  && right_key_held (globals_after (dispatch m) g) = false.
Proof.
  intro E.
  destruct (connection_monitor_frame g) as (_ & [L0 R0] & _).
  destruct m as [x y z|x y z|b|j|].
  - rewrite dispatch_acc_globals.
    destruct (calibration_acc_handler_frame x y z
                (globals_after connection_monitor g)) as (_ & [L1 R1] & _).
    congruence.
  - rewrite dispatch_gyro_globals.
    destruct (calibration_gyro_handler_frame x y z
                (globals_after connection_monitor g)) as (_ & [L1 R1] & _).
    apply gyroscope_handler_exclusive. congruence.
  - rewrite dispatch_blink_globals. congruence.
  - rewrite dispatch_jaw_clench_globals. congruence.
  - rewrite dispatch_other_globals. congruence.
Qed.

Lemma dispatch_same_mode m (g : globals R) :
  CONTROL_MODE (globals_after (dispatch m) g) = CONTROL_MODE g.
Proof.
  destruct (connection_monitor_frame g) as (_ & _ & _ & M0).
  unfold same_mode in M0.
  destruct m as [x y z|x y z|b|j|].
  - rewrite dispatch_acc_globals.
    destruct (calibration_acc_handler_frame x y z
                (globals_after connection_monitor g)) as (_ & _ & M1).
    unfold same_mode in M1. congruence.
  - rewrite dispatch_gyro_globals.
    destruct (calibration_gyro_handler_frame x y z
                (globals_after connection_monitor g)) as (_ & _ & M1).
    destruct (gyroscope_handler_frame x y z
                (globals_after (calibration_gyro_handler x y z)
                   (globals_after connection_monitor g))) as (_ & M2).
    unfold same_mode in M1, M2. congruence.
  - now rewrite dispatch_blink_globals.
  - now rewrite dispatch_jaw_clench_globals.
  - now rewrite dispatch_other_globals.
Qed.

End Dispatch.

(** ** The held keys exclude each other *)

(** C1.  Whatever messages arrive, in whatever order and control mode: after
    each of them, starting from the globals the module sets up (no key held),
    [left_key_held] and [right_key_held] are not both true.  The states are
    those between messages, the states of the swivel detector's machine. *)
Theorem swivel_holds_exclude_each_other :
  forall (R : Type) (N : PyNumber R) (mode : control_mode) (ms : list (message R)),
    Forall (fun g => left_key_held g && right_key_held g = false)
           (globals_along ms (initial mode)).
Proof.
  intros R N mode ms.
  assert (E : left_key_held (initial (R:=R) mode)
              && right_key_held (initial (R:=R) mode) = false) by reflexivity.
  revert E. generalize (initial (R:=R) mode).
  induction ms as [|m ms IH]; intros g E; cbn [globals_along].
  - constructor; [exact E | constructor].
  - constructor; [exact E|].
    apply IH, dispatch_exclusive, E.
Qed.

(** ** Blinks and jaw clenches *)

(** C8.  Whatever the globals are, calibrated or not: a blink message whose
    argument is true presses the space bar, pauses for a tenth of a second and
    releases it, once; a jaw clench message whose argument is true presses and
    at once releases the up arrow; and a message whose argument is false
    emits nothing.  None of them touches the held-key flags or the
    calibration. *)
Theorem discrete_gestures_not_gated :
  forall (R : Type) (N : PyNumber R) (g : globals R),
    emitted (dispatch (Muse_blink true)) g
    = [Press Key.space; Sleep (of_decimal 0.1); Release Key.space]
    /\ emitted (dispatch (Muse_jaw_clench true)) g
       = [Press Key.up; Release Key.up]
    /\ emitted (dispatch (Muse_blink false)) g = []
    /\ emitted (dispatch (Muse_jaw_clench false)) g = []
    /\ (forall active,
          same_hold g (globals_after (dispatch (Muse_blink active)) g)
          /\ same_calibration g (globals_after (dispatch (Muse_blink active)) g)
          /\ same_hold g (globals_after (dispatch (Muse_jaw_clench active)) g)
          /\ same_calibration g (globals_after (dispatch (Muse_jaw_clench active)) g)).
Proof.
  intros R N g.
  destruct (connection_monitor_frame g) as (E & Hh & Hc & _).
  repeat split;
    try (cbn [dispatch]; rewrite !emitted_bind, E; reflexivity);
    rewrite ?dispatch_blink_globals, ?dispatch_jaw_clench_globals;
    first [apply Hh | apply Hc].
Qed.

(** ** Gating by control mode and calibration *)

(** C9.  A detector that the control mode excludes, or that runs before
    calibration is complete, does nothing: its handler returns with the
    globals as they were (held-key flags and baselines included) and emits no
    key event. *)
Theorem inactive_detector_is_noop :
  forall (R : Type) (N : PyNumber R) (d : detector) (g : globals R) (x y z : R),
    detector_active d g = false ->
    detector_handler d x y z g = (tt, g, []).
Proof.
  intros R N d g x y z.
  unfold detector_active.
  destruct g as [o l r m c bx by_ bz cd]; cbn [CONTROL_MODE calibrated].
  destruct d, m, c; cbn; try discriminate; intros _; reflexivity.
Qed.

Lemma inactive_detector_is_noop_witness :
  detector_handler Swivel_detector 0 0 (-120) (initial (R:=Q) tilt)
  = (tt, initial tilt, [])
  /\ detector_handler Tilt_detector 0 0.2 1 (initial (R:=Q) both)
     = (tt, initial both, []).
Proof.
  split.
  - apply (@inactive_detector_is_noop Q Q_number Swivel_detector (initial tilt)).
    reflexivity.
  - apply (@inactive_detector_is_noop Q Q_number Tilt_detector (initial both)).
    reflexivity.
Defined.

(** ** The tilt detector reads the y axis only *)

Section TiltAxes.

Context {R : Type} `{PyNumber R}.

Lemma accelerometer_handler_ignores_x_z x x' y z z' (g : globals R) :
  accelerometer_handler x y z g = accelerometer_handler x' y z' g.
Proof. reflexivity. Qed.

Lemma calibration_acc_handler_done x y z (g : globals R) :
  calibrated g = true -> calibration_acc_handler x y z g = (tt, g, []).
Proof.
  intro C. unfold calibration_acc_handler; eff_unfold. now rewrite C.
Qed.

Lemma calibration_gyro_handler_done x y z (g : globals R) :
  calibrated g = true -> calibration_gyro_handler x y z g = (tt, g, []).
Proof.
  intro C. unfold calibration_gyro_handler; eff_unfold. now rewrite C.
Qed.

(** The tilt detector only ever touches the left and right arrows. *)
Lemma accelerometer_handler_keys x y z (g : globals R) :
  Forall (fun a => a = Press Key.left \/ a = Press Key.right
                   \/ a = Release Key.left \/ a = Release Key.right)
         (emitted (accelerometer_handler x y z) g).
Proof.
  unfold accelerometer_handler; split_ifs;
    repeat first [apply Forall_nil | apply Forall_cons]; auto 6.
Qed.

End TiltAxes.

(** C10.  Once calibration is complete, two accelerometer messages with the
    same y, whatever their x and z, handled from the same globals, end in the
    same globals and emit the same key events; and the events are presses and
    releases of the left and right arrows only, so leaning forward or back
    never presses a key of its own. *)
Theorem tilt_ignores_x_and_z :
  forall (R : Type) (N : PyNumber R) (g : globals R) (x x' y z z' : R),
    calibrated g = true ->
    dispatch (Muse_acc x y z) g = dispatch (Muse_acc x' y z') g
    /\ Forall (fun a => a = Press Key.left \/ a = Press Key.right
                        \/ a = Release Key.left \/ a = Release Key.right)
              (emitted (dispatch (Muse_acc x y z)) g).
Proof.
  intros R N g x x' y z z' C.
  assert (C' : calibrated (globals_after connection_monitor g) = true).
  { destruct (connection_monitor_frame g) as (_ & _ & (E & _) & _). congruence. }
  split.
  - cbn [dispatch]. unfold bind, debug_handler, ret.
    unfold globals_after in C'.
    destruct (connection_monitor g) as [[[] g1] out1]; cbn [fst snd] in C'.
    rewrite !calibration_acc_handler_done by exact C'.
    reflexivity.
  - rewrite dispatch_acc_emitted. apply accelerometer_handler_keys.
Qed.

Lemma tilt_ignores_x_and_z_witness :
  dispatch (Muse_acc 0 0.2 1)
           (globals_after (serve at_rest) (initial (R:=Q) tilt))
  = dispatch (Muse_acc 0.9 0.2 (-3))
             (globals_after (serve at_rest) (initial (R:=Q) tilt))
  /\ Forall (fun a => a = Press Key.left \/ a = Press Key.right
                      \/ a = Release Key.left \/ a = Release Key.right)
            (emitted (dispatch (Muse_acc 0 0.2 1))
                     (globals_after (serve at_rest) (initial (R:=Q) tilt))).
Proof.
  apply (@tilt_ignores_x_and_z Q Q_number
           (globals_after (serve at_rest) (initial tilt)) 0 0.9 0.2 1 (-3)).
  vm_compute. reflexivity.
Defined.

(** ** Calibration *)

Section Calibration.

Context {R : Type} `{PyNumber R}.

Local Open Scope nat_scope.

Lemma acc_ys_length (ms : list (message R)) :
  length (acc_ys ms) = length (acc_xs ms).
Proof.
  unfold acc_ys, acc_xs.
  induction ms as [|[] ms IH]; cbn [flat_map app length]; congruence.
Qed.

Lemma acc_xs_app (ms1 ms2 : list (message R)) :
  acc_xs (ms1 ++ ms2) = acc_xs ms1 ++ acc_xs ms2.
Proof. apply flat_map_app. Qed.

Lemma acc_ys_app (ms1 ms2 : list (message R)) :
  acc_ys (ms1 ++ ms2) = acc_ys ms1 ++ acc_ys ms2.
Proof. apply flat_map_app. Qed.

Lemma gyro_zs_app (ms1 ms2 : list (message R)) :
  gyro_zs (ms1 ++ ms2) = gyro_zs ms1 ++ gyro_zs ms2.
Proof. apply flat_map_app. Qed.

Lemma firstn_snoc_room (n : nat) (l : list R) (v : R) :
  length l < n -> firstn n l ++ [v] = firstn n (l ++ [v]).
Proof.
  intro L.
  rewrite firstn_all2 by lia.
  symmetry; apply firstn_all2. rewrite length_app; cbn; lia.
Qed.

Lemma firstn_snoc_full (n : nat) (l : list R) (v : R) :
  n <= length l -> firstn n (l ++ [v]) = firstn n l.
Proof.
  intro L. rewrite firstn_app.
  replace (n - length l) with 0 by lia.
  cbn. apply app_nil_r.
Qed.

Lemma calibration_follows_same ms (g g' : globals R) :
  same_calibration g g' -> calibration_follows ms g -> calibration_follows ms g'.
Proof.
  intros (E1 & E2 & E3 & E4 & E5) C.
  unfold calibration_follows. rewrite E1, E2, E3, E4, E5. exact C.
Qed.

Lemma calibration_follows_initial mode :
  calibration_follows [] (initial mode).
Proof. repeat split. Qed.

(** The two calibration handlers as functions on the globals. *)
Lemma calibration_acc_handler_globals x y z (g : globals R) :
  globals_after (calibration_acc_handler x y z) g
  = if negb (calibrated g)
       && (length (acc_x (calibration_data g)) <? CALIBRATION_SAMPLES)
    then
      let d := append_acc_y y (append_acc_x x (calibration_data g)) in
      let g1 := set_calibration_data d g in
      if length (acc_x d) =? CALIBRATION_SAMPLES then
        let g2 := set_baseline_acc_y (mean (acc_y d))
                    (set_baseline_acc_x (mean (acc_x d)) g1) in
        if length (gyro_z d) =? CALIBRATION_SAMPLES
        then set_calibrated true g2 else g2
      else g1
    else g.
Proof.
  unfold calibration_acc_handler, mean; split_ifs; reflexivity.
Qed.

Lemma calibration_gyro_handler_globals x y z (g : globals R) :
  globals_after (calibration_gyro_handler x y z) g
  = if negb (calibrated g)
       && (length (gyro_z (calibration_data g)) <? CALIBRATION_SAMPLES)
    then
      let d := append_gyro_z z (calibration_data g) in
      let g1 := set_calibration_data d g in
      if length (gyro_z d) =? CALIBRATION_SAMPLES then
        let g2 := set_baseline_gyro_z (mean (gyro_z d)) g1 in
        if length (acc_x d) =? CALIBRATION_SAMPLES
        then set_calibrated true g2 else g2
      else g1
    else g.
Proof.
  unfold calibration_gyro_handler, mean; split_ifs; reflexivity.
Qed.

Lemma calibration_acc_handler_follows x y z ms (g : globals R) :
  calibration_follows ms g ->
  calibration_follows (ms ++ [Muse_acc x y z])
    (globals_after (calibration_acc_handler x y z) g).
Proof.
  rewrite calibration_acc_handler_globals.
  destruct g as [o l r m c bx by_ bz [ax ay gz]].
  unfold calibration_follows;
    cbn [calibrated baseline_acc_x baseline_acc_y baseline_gyro_z
         calibration_data acc_x acc_y gyro_z].
  intros (E1 & E2 & E3 & E4 & E5 & E6 & E7).
  rewrite acc_xs_app, acc_ys_app, gyro_zs_app.
  change (acc_xs [Muse_acc x y z]) with [x].
  change (acc_ys [Muse_acc x y z]) with [y].
  change (gyro_zs [Muse_acc x y z]) with (@nil R).
  rewrite app_nil_r.
  pose proof (acc_ys_length ms) as LY.
  subst ax ay gz c bx by_ bz.
  cbv zeta.
  cbn [calibration_data acc_x acc_y gyro_z append_acc_x append_acc_y
       set_calibration_data].
  rewrite !length_app, !length_firstn. cbn [length].
  destruct (Nat.leb_spec CALIBRATION_SAMPLES (length (acc_xs ms))) as [Full|Room].
  - (* the buffer is full: the sample is dropped *)
    cbn [andb negb].
    replace (Nat.min CALIBRATION_SAMPLES (length (acc_xs ms)) <? CALIBRATION_SAMPLES)
      with false by (symmetry; apply Nat.ltb_ge; lia).
    rewrite andb_false_r.
    cbn [calibrated baseline_acc_x baseline_acc_y baseline_gyro_z
         calibration_data acc_x acc_y gyro_z].
    rewrite !firstn_snoc_full by lia.
    replace (CALIBRATION_SAMPLES <=? length (acc_xs ms) + 1) with true
      by (symmetry; apply Nat.leb_le; lia).
    replace (CALIBRATION_SAMPLES <=? length (acc_xs ms)) with true
      by (symmetry; apply Nat.leb_le; lia).
    repeat split.
  - (* there is room: the sample is stored *)
    cbn [andb negb].
    replace (Nat.min CALIBRATION_SAMPLES (length (acc_xs ms)) <? CALIBRATION_SAMPLES)
      with true by (symmetry; apply Nat.ltb_lt; lia).
    rewrite <- !firstn_snoc_room by lia.
    replace (Nat.min CALIBRATION_SAMPLES (length (acc_xs ms)) + 1)
      with (length (acc_xs ms) + 1) by lia.
    destruct (Nat.eqb_spec (length (acc_xs ms) + 1) CALIBRATION_SAMPLES) as [Now|Later].
    + replace (CALIBRATION_SAMPLES <=? length (acc_xs ms) + 1) with true
        by (symmetry; apply Nat.leb_le; lia).
      destruct (Nat.leb_spec CALIBRATION_SAMPLES (length (gyro_zs ms))) as [G|G].
      * replace (Nat.min CALIBRATION_SAMPLES (length (gyro_zs ms)) =? CALIBRATION_SAMPLES)
          with true by (symmetry; apply Nat.eqb_eq; lia).
        repeat split.
      * replace (Nat.min CALIBRATION_SAMPLES (length (gyro_zs ms)) =? CALIBRATION_SAMPLES)
          with false by (symmetry; apply Nat.eqb_neq; lia).
        repeat split.
    + replace (CALIBRATION_SAMPLES <=? length (acc_xs ms) + 1) with false
        by (symmetry; apply Nat.leb_gt; lia).
      repeat split.
Qed.

Lemma calibration_gyro_handler_follows x y z ms (g : globals R) :
  calibration_follows ms g ->
  calibration_follows (ms ++ [Muse_gyro x y z])
    (globals_after (calibration_gyro_handler x y z) g).
Proof.
  rewrite calibration_gyro_handler_globals.
  destruct g as [o l r m c bx by_ bz [ax ay gz]].
  unfold calibration_follows;
    cbn [calibrated baseline_acc_x baseline_acc_y baseline_gyro_z
         calibration_data acc_x acc_y gyro_z].
  intros (E1 & E2 & E3 & E4 & E5 & E6 & E7).
  rewrite acc_xs_app, acc_ys_app, gyro_zs_app.
  change (acc_xs [Muse_gyro x y z]) with (@nil R).
  change (acc_ys [Muse_gyro x y z]) with (@nil R).
  change (gyro_zs [Muse_gyro x y z]) with [z].
  rewrite !app_nil_r.
  subst ax ay gz c bx by_ bz.
  cbv zeta.
  cbn [calibration_data acc_x acc_y gyro_z append_gyro_z set_calibration_data].
  rewrite !length_app, !length_firstn. cbn [length].
  destruct (Nat.leb_spec CALIBRATION_SAMPLES (length (gyro_zs ms))) as [Full|Room].
  - (* the buffer is full: the sample is dropped *)
    replace (Nat.min CALIBRATION_SAMPLES (length (gyro_zs ms)) <? CALIBRATION_SAMPLES)
      with false by (symmetry; apply Nat.ltb_ge; lia).
    rewrite andb_false_r.
    cbn [calibrated baseline_acc_x baseline_acc_y baseline_gyro_z
         calibration_data acc_x acc_y gyro_z].
    rewrite !firstn_snoc_full by lia.
    replace (CALIBRATION_SAMPLES <=? length (gyro_zs ms) + 1) with true
      by (symmetry; apply Nat.leb_le; lia).
    replace (CALIBRATION_SAMPLES <=? length (gyro_zs ms)) with true
      by (symmetry; apply Nat.leb_le; lia).
    repeat split; rewrite ?andb_false_r, ?andb_true_r; reflexivity.
  - (* there is room: the sample is stored *)
    rewrite andb_false_r. cbn [andb negb].
    replace (Nat.min CALIBRATION_SAMPLES (length (gyro_zs ms)) <? CALIBRATION_SAMPLES)
      with true by (symmetry; apply Nat.ltb_lt; lia).
    rewrite <- !firstn_snoc_room by lia.
    replace (Nat.min CALIBRATION_SAMPLES (length (gyro_zs ms)) + 1)
      with (length (gyro_zs ms) + 1) by lia.
    destruct (Nat.eqb_spec (length (gyro_zs ms) + 1) CALIBRATION_SAMPLES) as [Now|Later].
    + replace (CALIBRATION_SAMPLES <=? length (gyro_zs ms) + 1) with true
        by (symmetry; apply Nat.leb_le; lia).
      destruct (Nat.leb_spec CALIBRATION_SAMPLES (length (acc_xs ms))) as [A|A].
      * replace (Nat.min CALIBRATION_SAMPLES (length (acc_xs ms)) =? CALIBRATION_SAMPLES)
          with true by (symmetry; apply Nat.eqb_eq; lia).
        repeat split; rewrite ?andb_false_r, ?andb_true_r; reflexivity.
      * replace (Nat.min CALIBRATION_SAMPLES (length (acc_xs ms)) =? CALIBRATION_SAMPLES)
          with false by (symmetry; apply Nat.eqb_neq; lia).
        repeat split; rewrite ?andb_false_r, ?andb_true_r; reflexivity.
    + replace (CALIBRATION_SAMPLES <=? length (gyro_zs ms) + 1) with false
        by (symmetry; apply Nat.leb_gt; lia).
      repeat split; rewrite ?andb_false_r, ?andb_true_r; reflexivity.
Qed.

Lemma calibration_follows_history ms ms' (g : globals R) :
  acc_xs ms' = acc_xs ms -> acc_ys ms' = acc_ys ms -> gyro_zs ms' = gyro_zs ms ->
  calibration_follows ms g -> calibration_follows ms' g.
Proof.
  unfold calibration_follows. intros -> -> ->. exact (fun C => C).
Qed.

Lemma dispatch_follows m ms (g : globals R) :
  calibration_follows ms g ->
  calibration_follows (ms ++ [m]) (globals_after (dispatch m) g).
Proof.
  intro C.
  assert (C1 : calibration_follows ms (globals_after connection_monitor g)).
  { eapply calibration_follows_same; [|exact C].
    apply connection_monitor_frame. }
  destruct m as [x y z|x y z|b|j|].
  - rewrite dispatch_acc_globals.
    now apply calibration_acc_handler_follows.
  - rewrite dispatch_gyro_globals.
    eapply calibration_follows_same; [apply gyroscope_handler_frame|].
    now apply calibration_gyro_handler_follows.
  - rewrite dispatch_blink_globals.
    eapply calibration_follows_history; [| | |exact C1];
      rewrite ?acc_xs_app, ?acc_ys_app, ?gyro_zs_app; apply app_nil_r.
  - rewrite dispatch_jaw_clench_globals.
    eapply calibration_follows_history; [| | |exact C1];
      rewrite ?acc_xs_app, ?acc_ys_app, ?gyro_zs_app; apply app_nil_r.
  - rewrite dispatch_other_globals.
    eapply calibration_follows_history; [| | |exact C1];
      rewrite ?acc_xs_app, ?acc_ys_app, ?gyro_zs_app; apply app_nil_r.
Qed.

Lemma serve_follows ms ms0 (g : globals R) :
  calibration_follows ms0 g ->
  calibration_follows (ms0 ++ ms) (globals_after (serve ms) g).
Proof.
  revert ms0 g; induction ms as [|m ms IH]; intros ms0 g C.
  - now rewrite app_nil_r.
  - rewrite globals_after_serve_cons.
    replace (ms0 ++ m :: ms) with ((ms0 ++ [m]) ++ ms)
      by (now rewrite <- app_assoc).
    apply IH, dispatch_follows, C.
Qed.

(** From the start, the calibration is what the messages so far make it. *)
Lemma calibration_from_start mode ms :
  calibration_follows ms (globals_after (serve ms) (initial mode)).
Proof.
  apply (serve_follows ms (ms0:=[])), calibration_follows_initial.
Qed.

(** Once calibrated, nothing of the calibration changes any more. *)
Lemma dispatch_calibrated_frozen m (g : globals R) :
  calibrated g = true -> same_calibration g (globals_after (dispatch m) g).
Proof.
  intro C.
  destruct (connection_monitor_frame g) as (_ & _ & S0 & _).
  assert (C1 : calibrated (globals_after connection_monitor g) = true)
    by (destruct S0 as [E _]; congruence).
  destruct m as [x y z|x y z|b|j|].
  - rewrite dispatch_acc_globals.
    unfold globals_after at 1.
    rewrite calibration_acc_handler_done by exact C1. exact S0.
  - rewrite dispatch_gyro_globals.
    eapply same_calibration_trans; [|apply gyroscope_handler_frame].
    unfold globals_after at 1.
    rewrite calibration_gyro_handler_done by exact C1. exact S0.
  - now rewrite dispatch_blink_globals.
  - now rewrite dispatch_jaw_clench_globals.
  - now rewrite dispatch_other_globals.
Qed.

Lemma serve_calibrated_frozen ms (g : globals R) :
  calibrated g = true -> same_calibration g (globals_after (serve ms) g).
Proof.
  revert g; induction ms as [|m ms IH]; intros g C.
  - apply same_calibration_refl.
  - rewrite globals_after_serve_cons.
    pose proof (dispatch_calibrated_frozen m g C) as S1.
    eapply same_calibration_trans; [exact S1|].
    apply IH. destruct S1 as [E _]; congruence.
Qed.

Lemma same_calibration_acc (g g' : globals R) :
  same_calibration g g' -> same_acc_calibration g g'.
Proof.
  intros (_ & E2 & E3 & _ & E5). unfold same_acc_calibration.
  now rewrite E2, E3, E5.
Qed.

Lemma same_calibration_gyro (g g' : globals R) :
  same_calibration g g' -> same_gyro_calibration g g'.
Proof.
  intros (_ & _ & _ & E4 & E5). unfold same_gyro_calibration.
  now rewrite E4, E5.
Qed.

Lemma same_acc_calibration_trans (g1 g2 g3 : globals R) :
  same_acc_calibration g1 g2 -> same_acc_calibration g2 g3 ->
  same_acc_calibration g1 g3.
Proof.
  intros (A1 & A2 & A3 & A4) (B1 & B2 & B3 & B4).
  repeat split; congruence.
Qed.

Lemma same_gyro_calibration_trans (g1 g2 g3 : globals R) :
  same_gyro_calibration g1 g2 -> same_gyro_calibration g2 g3 ->
  same_gyro_calibration g1 g3.
Proof. intros (A1 & A2) (B1 & B2). split; congruence. Qed.

(** A full buffer takes no more samples. *)
Lemma calibration_acc_handler_full x y z (g : globals R) :
  CALIBRATION_SAMPLES <= length (acc_x (calibration_data g)) ->
  globals_after (calibration_acc_handler x y z) g = g.
Proof.
  intro L. rewrite calibration_acc_handler_globals.
  replace (length (acc_x (calibration_data g)) <? CALIBRATION_SAMPLES)
    with false by (symmetry; apply Nat.ltb_ge; exact L).
  now rewrite andb_false_r.
Qed.

Lemma calibration_gyro_handler_full x y z (g : globals R) :
  CALIBRATION_SAMPLES <= length (gyro_z (calibration_data g)) ->
  globals_after (calibration_gyro_handler x y z) g = g.
Proof.
  intro L. rewrite calibration_gyro_handler_globals.
  replace (length (gyro_z (calibration_data g)) <? CALIBRATION_SAMPLES)
    with false by (symmetry; apply Nat.ltb_ge; exact L).
  now rewrite andb_false_r.
Qed.

(** Each calibration handler leaves the other sensor's half alone. *)
Lemma calibration_acc_handler_gyro_frame x y z (g : globals R) :
  same_gyro_calibration g (globals_after (calibration_acc_handler x y z) g).
Proof.
  rewrite calibration_acc_handler_globals. cbv zeta.
  split_ifs; split; reflexivity.
Qed.

Lemma calibration_gyro_handler_acc_frame x y z (g : globals R) :
  same_acc_calibration g (globals_after (calibration_gyro_handler x y z) g).
Proof.
  rewrite calibration_gyro_handler_globals. cbv zeta.
  split_ifs; repeat split; reflexivity.
Qed.

Lemma dispatch_acc_half_frozen m (g : globals R) :
  CALIBRATION_SAMPLES <= length (acc_x (calibration_data g)) ->
  same_acc_calibration g (globals_after (dispatch m) g).
Proof.
  intro L.
  destruct (connection_monitor_frame g) as (_ & _ & S0 & _).
  pose proof (same_calibration_acc S0) as A0.
  destruct m as [x y z|x y z|b|j|].
  - rewrite dispatch_acc_globals, calibration_acc_handler_full; [exact A0|].
    destruct A0 as [E _]. now rewrite E.
  - rewrite dispatch_gyro_globals.
    eapply same_acc_calibration_trans; [exact A0|].
    eapply same_acc_calibration_trans;
      [apply calibration_gyro_handler_acc_frame|].
    apply same_calibration_acc, gyroscope_handler_frame.
  - now rewrite dispatch_blink_globals.
  - now rewrite dispatch_jaw_clench_globals.
  - now rewrite dispatch_other_globals.
Qed.

Lemma dispatch_gyro_half_frozen m (g : globals R) :
  CALIBRATION_SAMPLES <= length (gyro_z (calibration_data g)) ->
  same_gyro_calibration g (globals_after (dispatch m) g).
Proof.
  intro L.
  destruct (connection_monitor_frame g) as (_ & _ & S0 & _).
  pose proof (same_calibration_gyro S0) as G0.
  destruct m as [x y z|x y z|b|j|].
  - rewrite dispatch_acc_globals.
    eapply same_gyro_calibration_trans; [exact G0|].
    apply calibration_acc_handler_gyro_frame.
  - rewrite dispatch_gyro_globals.
    rewrite calibration_gyro_handler_full.
    + eapply same_gyro_calibration_trans; [exact G0|].
      apply same_calibration_gyro, gyroscope_handler_frame.
    + destruct G0 as [E _]. now rewrite E.
  - now rewrite dispatch_blink_globals.
  - now rewrite dispatch_jaw_clench_globals.
  - now rewrite dispatch_other_globals.
Qed.

Lemma serve_acc_half_frozen ms (g : globals R) :
  CALIBRATION_SAMPLES <= length (acc_x (calibration_data g)) ->
  same_acc_calibration g (globals_after (serve ms) g).
Proof.
  revert g; induction ms as [|m ms IH]; intros g L.
  - repeat split.
  - rewrite globals_after_serve_cons.
    pose proof (dispatch_acc_half_frozen m g L) as A1.
    eapply same_acc_calibration_trans; [exact A1|].
    apply IH. destruct A1 as [E _]. now rewrite E.
Qed.

Lemma serve_gyro_half_frozen ms (g : globals R) :
  CALIBRATION_SAMPLES <= length (gyro_z (calibration_data g)) ->
  same_gyro_calibration g (globals_after (serve ms) g).
Proof.
  revert g; induction ms as [|m ms IH]; intros g L.
  - repeat split.
  - rewrite globals_after_serve_cons.
    pose proof (dispatch_gyro_half_frozen m g L) as G1.
    eapply same_gyro_calibration_trans; [exact G1|].
    apply IH. destruct G1 as [E _]. now rewrite E.
Qed.

End Calibration.

(** ** The [calibrated] flag over a run *)

Section Flag.

Context {R : Type} `{PyNumber R}.

Lemma rises_step b b' l :
  rises (b :: b' :: l)
  = ((if negb b && b' then 1 else 0) + rises (b' :: l))%nat.
Proof. reflexivity. Qed.

Lemma falls_step b b' l :
  falls (b :: b' :: l)
  = ((if b && negb b' then 1 else 0) + falls (b' :: l))%nat.
Proof. reflexivity. Qed.

Lemma globals_along_head ms (g : globals R) :
  exists rest, globals_along ms g = g :: rest.
Proof. destruct ms; cbn [globals_along]; eauto. Qed.

Lemma serve_calibrated_stays ms (g : globals R) :
  calibrated g = true -> calibrated (globals_after (serve ms) g) = true.
Proof.
  intro C. destruct (serve_calibrated_frozen ms g C) as [E _]. congruence.
Qed.

(** Along a run the flag rises once if it starts false and ends true, and
    not at all otherwise; it never falls. *)
Lemma rises_calibrated ms (g : globals R) :
  rises (map (@calibrated R) (globals_along ms g))
  = if negb (calibrated g) && calibrated (globals_after (serve ms) g)
    then 1%nat else 0%nat.
Proof.
  revert g; induction ms as [|m ms IH]; intro g.
  - cbn. now destruct (calibrated g).
  - rewrite globals_after_serve_cons. cbn [globals_along map].
    specialize (IH (globals_after (dispatch m) g)).
    pose proof (@serve_calibrated_stays ms (globals_after (dispatch m) g)) as S1.
    pose proof (dispatch_calibrated_frozen m g) as S0.
    destruct (globals_along_head ms (globals_after (dispatch m) g)) as [rest E].
    rewrite E in *. cbn [map] in *. rewrite rises_step, IH.
    destruct (calibrated g) eqn:Cg.
    + destruct (S0 eq_refl) as [E0 _]. now rewrite E0, Cg.
    + destruct (calibrated (globals_after (dispatch m) g)).
      * now rewrite S1.
      * reflexivity.
Qed.

Lemma falls_calibrated ms (g : globals R) :
  falls (map (@calibrated R) (globals_along ms g)) = 0%nat.
Proof.
  revert g; induction ms as [|m ms IH]; intro g.
  - reflexivity.
  - cbn [globals_along map].
    specialize (IH (globals_after (dispatch m) g)).
    pose proof (dispatch_calibrated_frozen m g) as S0.
    destruct (globals_along_head ms (globals_after (dispatch m) g)) as [rest E].
    rewrite E in *. cbn [map] in *. rewrite falls_step, IH.
    destruct (calibrated g) eqn:Cg; [|reflexivity].
    destruct (S0 eq_refl) as [E0 _]. now rewrite E0, Cg.
Qed.

End Flag.

(** C3.  Take any sequence of messages, with the accelerometer and the
    gyroscope samples interleaved in any way (and any blink, jaw clench or
    other message among them).  If it holds exactly [CALIBRATION_SAMPLES]
    samples of each sensor, then from the initial globals [calibrated] ends
    true, having gone from false to true exactly once along the run, and the
    three baselines are the means of the x, y and yaw values fed.  If it holds
    fewer samples of either sensor ([CALIBRATION_SAMPLES - 1], say),
    [calibrated] is still false. *)
Theorem calibration_completes :
  forall (R : Type) (N : PyNumber R) (mode : control_mode) (ms : list (message R)),
    let g := globals_after (serve ms) (initial mode) in
    (length (acc_xs ms) = CALIBRATION_SAMPLES ->
     length (gyro_zs ms) = CALIBRATION_SAMPLES ->
     calibrated g = true
     /\ rises (map (@calibrated R) (globals_along ms (initial mode))) = 1%nat
     /\ baseline_acc_x g = mean (acc_xs ms)
     /\ baseline_acc_y g = mean (acc_ys ms)
     /\ baseline_gyro_z g = mean (gyro_zs ms))
    /\ ((length (acc_xs ms) < CALIBRATION_SAMPLES)%nat
        \/ (length (gyro_zs ms) < CALIBRATION_SAMPLES)%nat ->
        calibrated g = false).
Proof.
  intros R N mode ms g.
  destruct (calibration_from_start mode ms)
    as (_ & _ & _ & C & BX & BY & BZ).
  fold g in C, BX, BY, BZ.
  split.
  - intros LA LG.
    pose proof (acc_ys_length ms) as LY.
    rewrite LA, LG, Nat.leb_refl in *.
    rewrite !firstn_all2 in * by lia.
    repeat split; auto.
    rewrite rises_calibrated. fold g. now rewrite C.
  - intros [L|L]; rewrite C.
    + replace (CALIBRATION_SAMPLES <=? length (acc_xs ms))%nat with false
        by (symmetry; apply Nat.leb_gt; exact L).
      reflexivity.
    + replace (CALIBRATION_SAMPLES <=? length (gyro_zs ms))%nat with false
        by (symmetry; apply Nat.leb_gt; exact L).
      apply andb_false_r.
Qed.

Lemma calibration_completes_witness :
  calibrated (globals_after (serve warm_up) (initial tilt)) = true
  /\ rises (map (@calibrated Q) (globals_along warm_up (initial tilt))) = 1%nat
  /\ baseline_acc_x (globals_after (serve warm_up) (initial tilt))
     = mean (acc_xs warm_up)
  /\ baseline_acc_y (globals_after (serve warm_up) (initial tilt))
     = mean (acc_ys warm_up)
  /\ baseline_gyro_z (globals_after (serve warm_up) (initial tilt))
     = mean (gyro_zs warm_up).
Proof.
  apply (@calibration_completes Q Q_number tilt warm_up); reflexivity.
Defined.

(** C4.  Over any sequence of messages from the initial globals, and any
    sequence [later] that follows it: [calibrated] rises at most once and
    never falls, and once true it stays true; it is true only when both
    buffers hold [CALIBRATION_SAMPLES] values; and from the moment a buffer
    holds [CALIBRATION_SAMPLES] values its baselines are the means of that
    buffer and no later message changes them. *)
Theorem calibration_latches :
  forall (R : Type) (N : PyNumber R) (mode : control_mode)
         (ms later : list (message R)),
    let g := globals_after (serve ms) (initial mode) in
    let g' := globals_after (serve later) g in
    (rises (map (@calibrated R) (globals_along ms (initial mode))) <= 1)%nat
    /\ falls (map (@calibrated R) (globals_along ms (initial mode))) = 0%nat
    /\ (calibrated g = true -> calibrated g' = true)
    /\ (calibrated g = true ->
        length (acc_x (calibration_data g)) = CALIBRATION_SAMPLES
        /\ length (gyro_z (calibration_data g)) = CALIBRATION_SAMPLES)
    /\ (length (acc_x (calibration_data g)) = CALIBRATION_SAMPLES ->
        baseline_acc_x g = mean (acc_x (calibration_data g))
        /\ baseline_acc_y g = mean (acc_y (calibration_data g))
        /\ baseline_acc_x g' = baseline_acc_x g
        /\ baseline_acc_y g' = baseline_acc_y g)
    /\ (length (gyro_z (calibration_data g)) = CALIBRATION_SAMPLES ->
        baseline_gyro_z g = mean (gyro_z (calibration_data g))
        /\ baseline_gyro_z g' = baseline_gyro_z g).
Proof.
  intros R N mode ms later g g'.
  destruct (calibration_from_start mode ms)
    as (AX & AY & GZ & C & BX & BY & BZ).
  fold g in AX, AY, GZ, C, BX, BY, BZ.
  assert (full : forall l : list R,
             length (firstn CALIBRATION_SAMPLES l) = CALIBRATION_SAMPLES ->
             (CALIBRATION_SAMPLES <=? length l)%nat = true).
  { intros l L. rewrite length_firstn in L. apply Nat.leb_le. lia. }
  split; [|split; [|split; [|split; [|split]]]].
  - rewrite rises_calibrated.
    destruct (negb (calibrated (initial mode)) && _); lia.
  - apply falls_calibrated.
  - apply serve_calibrated_stays.
  - intro T. rewrite C in T. apply andb_prop in T. destruct T as [TA TG].
    apply Nat.leb_le in TA, TG.
    rewrite AX, GZ, !length_firstn. lia.
  - intro L.
    destruct (serve_acc_half_frozen later g) as (_ & _ & FX & FY);
      [rewrite L; apply Nat.le_refl|].
    rewrite AX in L. apply full in L.
    rewrite L in BX, BY. rewrite AX, AY. auto.
  - intro L.
    destruct (serve_gyro_half_frozen later g) as (_ & FZ);
      [rewrite L; apply Nat.le_refl|].
    rewrite GZ in L. apply full in L.
    rewrite L in BZ. rewrite GZ. auto.
Qed.

Lemma calibration_latches_witness :
  calibrated (globals_after (serve (warm_up ++ warm_up)) (initial both)) = true
  /\ baseline_gyro_z (globals_after (serve (warm_up ++ warm_up)) (initial both))
     = baseline_gyro_z (globals_after (serve warm_up) (initial both)).
Proof.
  rewrite globals_after_serve_app.
  destruct (@calibration_latches Q Q_number both warm_up warm_up)
    as (_ & _ & Stays & _ & _ & Gyro).
  split.
  - apply Stays. reflexivity.
  - apply Gyro. reflexivity.
Defined.

(** ** An active detector, one sample *)

Section Active.

Context {R : Type} `{PyNumber R}.

Lemma detector_active_tilt (g : globals R) :
  detector_active Tilt_detector g = true ->
  control_mode_eqb (CONTROL_MODE g) swivel = false /\ calibrated g = true.
Proof.
  unfold detector_active. destruct (CONTROL_MODE g), (calibrated g);
    cbn; intro; try discriminate; auto.
Qed.

Lemma detector_active_swivel (g : globals R) :
  detector_active Swivel_detector g = true ->
  control_mode_eqb (CONTROL_MODE g) tilt = false /\ calibrated g = true.
Proof.
  unfold detector_active. destruct (CONTROL_MODE g), (calibrated g);
    cbn; intro; try discriminate; auto.
Qed.

(** The detectors read the control mode, the calibration and the held-key
    flags, and nothing else of the globals. *)
Lemma accelerometer_handler_reads x y z (g g' : globals R) :
  same_mode g g' -> same_calibration g g' ->
  emitted (accelerometer_handler x y z) g'
  = emitted (accelerometer_handler x y z) g.
Proof.
  destruct g, g'. unfold same_mode, same_calibration.
  cbn [CONTROL_MODE calibrated baseline_acc_x baseline_acc_y baseline_gyro_z
       calibration_data].
  intros M (C & BX & BY & BZ & CD). subst.
  unfold accelerometer_handler. split_ifs; reflexivity.
Qed.

Lemma gyroscope_handler_reads x y z (g g' : globals R) :
  same_mode g g' -> same_calibration g g' -> same_hold g g' ->
  emitted (gyroscope_handler x y z) g' = emitted (gyroscope_handler x y z) g
  /\ same_hold (globals_after (gyroscope_handler x y z) g)
               (globals_after (gyroscope_handler x y z) g').
Proof.
  destruct g, g'. unfold same_mode, same_calibration, same_hold.
  cbn [CONTROL_MODE calibrated baseline_acc_x baseline_acc_y baseline_gyro_z
       calibration_data left_key_held right_key_held].
  intros M (C & BX & BY & BZ & CD) (L & Rt). subst.
  unfold gyroscope_handler. split_ifs; repeat split.
Qed.

Lemma calibration_acc_handler_done_globals x y z (g : globals R) :
  calibrated g = true -> globals_after (calibration_acc_handler x y z) g = g.
Proof.
  intro C. unfold globals_after. now rewrite calibration_acc_handler_done.
Qed.

Lemma calibration_gyro_handler_done_globals x y z (g : globals R) :
  calibrated g = true -> globals_after (calibration_gyro_handler x y z) g = g.
Proof.
  intro C. unfold globals_after. now rewrite calibration_gyro_handler_done.
Qed.

(** Once calibrated, a sample goes straight to its detector. *)
Lemma dispatch_acc_calibrated x y z (g : globals R) :
  calibrated g = true ->
  emitted (dispatch (Muse_acc x y z)) g = emitted (accelerometer_handler x y z) g.
Proof.
  intro C. rewrite dispatch_acc_emitted, dispatch_acc_globals.
  destruct (connection_monitor_frame g) as (_ & _ & S0 & M0).
  rewrite calibration_acc_handler_done_globals
    by (destruct S0 as [C0 _]; congruence).
  now apply accelerometer_handler_reads.
Qed.

Lemma dispatch_gyro_calibrated x y z (g : globals R) :
  calibrated g = true ->
  emitted (dispatch (Muse_gyro x y z)) g = emitted (gyroscope_handler x y z) g
  /\ same_hold (globals_after (gyroscope_handler x y z) g)
               (globals_after (dispatch (Muse_gyro x y z)) g).
Proof.
  intro C. rewrite dispatch_gyro_emitted, dispatch_gyro_globals.
  destruct (connection_monitor_frame g) as (_ & H0 & S0 & M0).
  rewrite calibration_gyro_handler_done_globals
    by (destruct S0 as [C0 _]; congruence).
  now apply gyroscope_handler_reads.
Qed.

End Active.

(** ** The swivel detector, branch by branch *)

Section Swivel.

Context {R : Type} `{PyNumber R}.

Variables (g : globals R) (x y z : R).
Hypothesis active : detector_active Swivel_detector g = true.

Let rel_z : R := sub z (baseline_gyro_z g).
Let g' : globals R := globals_after (gyroscope_handler x y z) g.
Let out : list (action R) := emitted (gyroscope_handler x y z) g.

Ltac swivel_branch :=
  destruct (detector_active_swivel g active) as [M C];
  subst rel_z g' out;
  destruct g as [o [] [] m c bx by_ bz cd];
  cbn [CONTROL_MODE calibrated baseline_gyro_z left_key_held right_key_held] in *;
  subst c; intros;
  unfold gyroscope_handler;
  repeat (eff_unfold;
          match goal with
          | E : ?b = _ |- context [if ?b then _ else _] => rewrite E
          end);
  eff_unfold; repeat split.

(** Swivel left: press left unless it is held, then release right if it is
    held. *)
Lemma gyroscope_handler_left :
  ltb rel_z (neg SWIVEL_THRESHOLD) = true ->
  out = (if left_key_held g then [] else [Press Key.left])
        ++ (if right_key_held g then [Release Key.right] else [])
  /\ left_key_held g' = true /\ right_key_held g' = false.
Proof.
  swivel_branch.
Qed.

(** Swivel right: press right unless it is held, then release left if it is
    held. *)
Lemma gyroscope_handler_right :
  ltb rel_z (neg SWIVEL_THRESHOLD) = false ->
  gtb rel_z SWIVEL_THRESHOLD = true ->
  out = (if right_key_held g then [] else [Press Key.right])
        ++ (if left_key_held g then [Release Key.left] else [])
  /\ left_key_held g' = false /\ right_key_held g' = true.
Proof.
  swivel_branch.
Qed.

(** Center: release whichever key is held. *)
Lemma gyroscope_handler_center :
  ltb rel_z (neg SWIVEL_THRESHOLD) = false ->
  gtb rel_z SWIVEL_THRESHOLD = false ->
  ltb (abs rel_z) SWIVEL_RELEASE_THRESHOLD = true ->
  out = (if left_key_held g then [Release Key.left] else [])
        ++ (if right_key_held g then [Release Key.right] else [])
  /\ left_key_held g' = false /\ right_key_held g' = false.
Proof.
  swivel_branch.
Qed.

(** Between the thresholds: nothing happens. *)
Lemma gyroscope_handler_dead_band :
  ltb rel_z (neg SWIVEL_THRESHOLD) = false ->
  gtb rel_z SWIVEL_THRESHOLD = false ->
  ltb (abs rel_z) SWIVEL_RELEASE_THRESHOLD = false ->
  out = [] /\ g' = g.
Proof.
  swivel_branch.
Qed.

End Swivel.

(** ** The policies, for numbers whose zones are disjoint *)

Section Policies.

Context {R : Type} `{PyNumber R}.
Variable leb : R -> R -> bool.
Hypothesis zones : zones_disjoint leb.

Lemma tilt_policy_holds : tilt_policy R.
Proof.
  intros g x y z A rel_y out. subst out.
  destruct (detector_active_tilt g A) as [M C].
  rewrite dispatch_acc_calibrated by exact C.
  unfold accelerometer_handler; eff_unfold. rewrite M, C. cbn [negb].
  fold rel_y.
  repeat split.
  - now intros ->.
  - intro Gt. now rewrite (tilt_right_not_left zones _ Gt), Gt.
  - now intros -> ->.
Qed.

Lemma swivel_policy_holds : swivel_policy R leb.
Proof.
  intros g x y z A rel_z g'.
  destruct (detector_active_swivel g A) as [M C].
  destruct (dispatch_gyro_calibrated x y z g C) as (E & L & Rt).
  fold g' in L, Rt.
  assert (S : forall l r,
             left_key_held (globals_after (gyroscope_handler x y z) g) = l ->
             right_key_held (globals_after (gyroscope_handler x y z) g) = r ->
             left_key_held g' = l /\ right_key_held g' = r)
    by (intros l r <- <-; split; assumption).
  split; [|split; [|split]].
  - intro Lt.
    destruct (gyroscope_handler_left g x y z A Lt) as (_ & L1 & R1).
    destruct (S _ _ L1 R1) as [L2 R2].
    unfold swivel_state_of. now rewrite L2, R2.
  - intro Gt.
    destruct (gyroscope_handler_right g x y z A
                (swivel_right_not_left zones _ Gt) Gt) as (_ & L1 & R1).
    destruct (S _ _ L1 R1) as [L2 R2].
    unfold swivel_state_of. now rewrite L2, R2.
  - intro In.
    destruct (centre_not_engaged zones _ In) as [NL NR].
    destruct (gyroscope_handler_center g x y z A NL NR In) as (_ & L1 & R1).
    destruct (S _ _ L1 R1) as [L2 R2].
    unfold swivel_state_of. now rewrite L2, R2.
  - intros Lo Hi.
    destruct (dead_band_not_engaged zones _ Hi) as [NL NR].
    destruct (gyroscope_handler_dead_band g x y z A NL NR
                (dead_band_not_centre zones _ Lo)) as (O & G).
    split.
    + rewrite G in L, Rt. split; assumption.
    + now rewrite E.
Qed.

End Policies.

(** ** Rationals: the zones are disjoint *)

Lemma Qltb_true (a b : Q) : Qltb a b = true <-> a < b.
Proof.
  unfold Qltb. rewrite negb_true_iff, <- not_true_iff_false, Qle_bool_iff.
  split; [apply Qnot_le_lt | apply Qlt_not_le].
Qed.

Lemma Qltb_false (a b : Q) : Qltb a b = false <-> b <= a.
Proof.
  unfold Qltb. rewrite negb_false_iff. apply Qle_bool_iff.
Qed.

Lemma Q_zones_disjoint : zones_disjoint (R:=Q) Qle_bool.
Proof.
  split; unfold gtb, TILT_THRESHOLD, SWIVEL_THRESHOLD, SWIVEL_RELEASE_THRESHOLD;
    cbn [ltb neg abs of_int of_decimal Q_number]; intro r;
    rewrite ?Qltb_true, ?Qltb_false, ?Qle_bool_iff.
  - intro G. lra.
  - intro G. unfold inject_Z in *. lra.
  - intro A. apply Qabs_Qlt_condition in A. unfold inject_Z in *. split; lra.
  - intro A. apply Qabs_Qle_condition in A. unfold inject_Z in *. split; lra.
  - auto.
Qed.

(** ** Binary64 floats: the zones are disjoint *)

(** The thresholds as the IEEE 754 specification sees them. *)
Lemma float_thresholds :
  Prim2SF (TILT_THRESHOLD (R:=float)) = S754_finite false 7205759403792794 (-57)
  /\ Prim2SF (SWIVEL_THRESHOLD (R:=float)) = S754_finite false 7036874417766400 (-46)
  /\ Prim2SF (SWIVEL_RELEASE_THRESHOLD (R:=float))
     = S754_finite false 7036874417766400 (-47).
Proof. repeat split; vm_compute; reflexivity. Qed.

Lemma compare_cont_flip (p q : positive) :
  Pos.compare_cont Eq q p = CompOpp (Pos.compare_cont Eq p q).
Proof. symmetry. apply (Pos.compare_cont_antisym p q Eq). Qed.

(** Comparisons of a float against a constant, read off sign, exponent and
    mantissa. *)
Ltac float_compare :=
  unfold SFltb, SFleb, SFcompare in *;
  repeat match goal with
         | s : bool |- _ => destruct s
         end;
  try discriminate; try reflexivity;
  repeat match goal with
         | H : context [Z.compare ?a ?b] |- _ => destruct (Z.compare_spec a b)
         | |- context [Z.compare ?a ?b] => destruct (Z.compare_spec a b)
         end;
  try discriminate; try reflexivity; try lia;
  repeat match goal with
         | H : context [Pos.compare_cont Eq ?a ?b] |- _ =>
             is_var b; rewrite (compare_cont_flip b a) in H
         | |- context [Pos.compare_cont Eq ?a ?b] =>
             is_var b; rewrite (compare_cont_flip b a)
         end;
  repeat match goal with
         | H : context [Pos.compare_cont Eq ?a ?b] |- _ =>
             destruct (Pos.compare_cont Eq a b)
         | |- context [Pos.compare_cont Eq ?a ?b] =>
             destruct (Pos.compare_cont Eq a b)
         end;
  try discriminate; try reflexivity.

Lemma float_zones_disjoint : zones_disjoint (R:=float) PrimFloat.leb.
Proof.
  destruct float_thresholds as (T & E & L).
  split; unfold gtb; cbn [ltb neg abs float_number]; intro r;
    rewrite ?FloatAxioms.ltb_spec, ?FloatAxioms.leb_spec, ?FloatAxioms.opp_spec,
      ?FloatAxioms.abs_spec, ?T, ?E, ?L;
    destruct (Prim2SF r) as [s|s| |s m e]; cbn [SFopp SFabs negb];
    intro A; try split; float_compare.
Qed.

(** ** The tilt policy *)

(** C5.  The tilt policy holds of the handlers, over the rationals and over
    binary64 floats: an accelerometer message makes an active tilt detector
    (mode tilt or both, calibrated) press left when
    [y - baseline_acc_y < -TILT_THRESHOLD], press right when
    [y - baseline_acc_y > TILT_THRESHOLD], and release left and right
    otherwise.  With the baseline at zero (after calibration at rest),
    [y = 0.2], [0.01], [0.2] emit: press right; release left and release
    right (in this order); press right. *)
Theorem tilt_detector_policy :
  tilt_policy Q /\ tilt_policy float
  /\ (forall mode, mode <> swivel ->
        baseline_acc_y (rested Q mode) == 0
        /\ emitted_along (map roll [0.2; 0.01; 0.2]) (rested Q mode)
           = [[Press Key.right];
              [Release Key.left; Release Key.right];
              [Press Key.right]]
        /\ baseline_acc_y (rested float mode) = 0%float
        /\ emitted_along (map roll [0.2; 0.01; 0.2]) (rested float mode)
           = [[Press Key.right];
              [Release Key.left; Release Key.right];
              [Press Key.right]]).
Proof.
  split; [exact (tilt_policy_holds Q_zones_disjoint)|].
  split; [exact (tilt_policy_holds float_zones_disjoint)|].
  intros [ | | ] M; try (exfalso; apply M; reflexivity);
    repeat split; vm_compute; reflexivity.
Qed.

Lemma tilt_detector_policy_witness :
  emitted (dispatch (Muse_acc 0 0.2 1)) (rested Q tilt) = [Press Key.right]
  /\ emitted (dispatch (Muse_acc 0 (-0.2) 1)) (rested Q tilt) = [Press Key.left]
  /\ emitted (dispatch (Muse_acc 0 0.01 1)) (rested Q tilt)
     = [Release Key.left; Release Key.right].
Proof.
  destruct tilt_detector_policy as (P & _).
  split; [|split].
  - apply (P (rested Q tilt) 0 0.2 1); reflexivity.
  - apply (P (rested Q tilt) 0 (-0.2) 1); reflexivity.
  - apply (P (rested Q tilt) 0 0.01 1); reflexivity.
Defined.

(** ** The swivel policy *)

(** C2.  With [SWIVEL_THRESHOLD = 100] and [SWIVEL_RELEASE_THRESHOLD = 50]
    the three-zone policy holds of the handlers, over the rationals and over
    binary64 floats: engage left below [-100], engage right above [100],
    release inside [50], and no transition (and no key event) in the dead
    band.  Starting at [Centered] with the baseline at zero, the yaw readings
    [0, -60, -120, -60, -40] leave the detector at [Centered], [Centered],
    [HoldingLeft], [HoldingLeft], [Centered]. *)
Theorem swivel_hysteresis :
  swivel_policy Q Qle_bool /\ swivel_policy float PrimFloat.leb
  /\ (forall mode, mode <> tilt ->
        swivel_state_of (rested Q mode) = Some Centered
        /\ baseline_gyro_z (rested Q mode) == 0
        /\ map (@swivel_state_of Q)
               (tl (globals_along (map yaw [0; -60; -120; -60; -40]%Z)
                                  (rested Q mode)))
           = map Some [Centered; Centered; HoldingLeft; HoldingLeft; Centered]
        /\ swivel_state_of (rested float mode) = Some Centered
        /\ baseline_gyro_z (rested float mode) = 0%float
        /\ map (@swivel_state_of float)
               (tl (globals_along (map yaw [0; -60; -120; -60; -40]%Z)
                                  (rested float mode)))
           = map Some [Centered; Centered; HoldingLeft; HoldingLeft; Centered]).
Proof.
  split; [exact (swivel_policy_holds Q_zones_disjoint)|].
  split; [exact (swivel_policy_holds float_zones_disjoint)|].
  intros [ | | ] M; try (exfalso; apply M; reflexivity);
    repeat split; vm_compute; reflexivity.
Qed.

Lemma swivel_hysteresis_witness :
  swivel_state_of (globals_after (dispatch (yaw (-120))) (rested Q swivel))
  = Some HoldingLeft
  /\ same_hold (globals_after (dispatch (yaw (-120))) (rested Q swivel))
               (globals_after (dispatch (yaw (-60)))
                  (globals_after (dispatch (yaw (-120))) (rested Q swivel))).
Proof.
  destruct swivel_hysteresis as (P & _).
  split.
  - apply (P (rested Q swivel) 0 0 (inject_Z (-120))); reflexivity.
  - apply (P (globals_after (dispatch (yaw (-120))) (rested Q swivel))
             0 0 (inject_Z (-60))); reflexivity.
Defined.

(** ** Swivelling from one side straight to the other *)

Lemma swivel_reversal_holds (R : Type) (N : PyNumber R) (leb : R -> R -> bool) :
  zones_disjoint leb -> swivel_reversal R.
Proof.
  intros zones g x y z A rel_z out. subst out.
  destruct (detector_active_swivel g A) as [M C].
  destruct (dispatch_gyro_calibrated x y z g C) as (-> & _).
  split.
  - intros Lt L Rt.
    destruct (gyroscope_handler_left g x y z A Lt) as (-> & _).
    now rewrite L, Rt.
  - intros Gt L Rt.
    destruct (gyroscope_handler_right g x y z A
                (swivel_right_not_left zones _ Gt) Gt) as (-> & _).
    now rewrite L, Rt.
Qed.

(** C6, as claimed, fails: with the right arrow held and a reading below
    [-SWIVEL_THRESHOLD], the release of right does not come before the press
    of left; the handler emits the press first. *)
Lemma release_right_does_not_precede_press_left :
  right_key_held (holding_right Q swivel) = true
  /\ left_key_held (holding_right Q swivel) = false
  /\ inject_Z (-120) - baseline_gyro_z (holding_right Q swivel) < - (100 # 1)
  /\ emitted (dispatch (yaw (-120))) (holding_right Q swivel)
     = [Press Key.left; Release Key.right]
  /\ ~ precedes (Release Key.right) (Press Key.left)
       (emitted (dispatch (yaw (-120))) (holding_right Q swivel)).
Proof.
  split; [reflexivity|]. split; [reflexivity|].
  split; [reflexivity|]. split; [reflexivity|].
  change (emitted (dispatch (yaw (-120))) (holding_right Q swivel))
    with [@Press Q Key.left; Release Key.right].
  intros (l1 & l2 & l3 & E).
  destruct l1 as [|a [|b l1]]; cbn in E.
  - inversion E.
  - inversion E. destruct l2; discriminate.
  - inversion E. destruct l1; discriminate.
Qed.

(** C6, amended.  Over the rationals and over binary64 floats: when a
    reading below [-SWIVEL_THRESHOLD] arrives while right is held (and left
    is not), the handler emits the press of left and then the release of
    right; when a reading above [SWIVEL_THRESHOLD] arrives while left is held
    (and right is not), it emits the press of right and then the release of
    left. *)
Theorem swivel_reversal_presses_then_releases :
  swivel_reversal Q /\ swivel_reversal float.
Proof.
  split.
  - exact (swivel_reversal_holds Q_zones_disjoint).
  - exact (swivel_reversal_holds float_zones_disjoint).
Qed.

Lemma swivel_reversal_presses_then_releases_witness :
  emitted (dispatch (yaw (-120))) (holding_right float both)
  = [Press Key.left; Release Key.right].
Proof.
  destruct swivel_reversal_presses_then_releases as (_ & P).
  apply (P (holding_right float both) 0%float 0%float (float_of_Z (-120)));
    vm_compute; reflexivity.
Defined.

(** ** Termination *)

Section Shutdown.

Context {R : Type} `{PyNumber R}.

(** The listener's callback always returns: for escape, [sys.exit] raises
    [SystemExit] inside the [try], and the bare [except] swallows it. *)
Lemma on_key_press_returns key (g : globals R) :
  on_key_press key g = (Returned tt, g, []).
Proof. destruct key; reflexivity. Qed.

(** Serving, the globals and the log are those of the messages handled before
    the first interrupt; key presses and the interrupt add nothing. *)
Lemma start_osc_run inputs (g : globals R) :
  start_osc inputs g
  = (if interrupted inputs then Raised KeyboardInterrupt else Returned Serving,
     globals_after (serve (handled inputs)) g,
     emitted (serve (handled inputs)) g).
Proof.
  revert g; induction inputs as [|[m|key|] inputs IH]; intro g.
  - reflexivity.
  - cbn [start_osc handled interrupted existsb orb].
    rewrite globals_after_serve_cons, emitted_serve_cons.
    unfold bind at 1. unfold globals_after, emitted in *.
    destruct (dispatch m g) as [[[] g1] out1]. cbn [fst snd].
    now rewrite IH.
  - cbn [start_osc handled interrupted existsb orb].
    unfold bind. rewrite on_key_press_returns. now rewrite IH.
  - reflexivity.
Qed.

Lemma main_run inputs (g : globals R) :
  main inputs g
  = (Returned (if interrupted inputs then Exited else Serving),
     globals_after (serve (handled inputs)) g,
     emitted (serve (handled inputs)) g).
Proof.
  unfold main, bind. rewrite start_osc_run.
  destruct (interrupted inputs); cbn [ret]; now rewrite app_nil_r.
Qed.

Lemma handled_until_interrupt before (after : list (stimulus R)) :
  handled (map Osc before ++ Interrupt :: after) = before.
Proof.
  induction before as [|m before IH]; cbn [map app handled];
    [reflexivity | now rewrite IH].
Qed.

Lemma interrupted_by_interrupt (before : list (message R)) after :
  interrupted (map Osc before ++ Interrupt :: after) = true.
Proof.
  unfold interrupted.
  induction before as [|m before IH]; cbn [map app existsb orb];
    [reflexivity | exact IH].
Qed.

End Shutdown.

(** C7, as claimed, fails: the swivel detector holds the left arrow, the
    user interrupts, the process exits, and no release of the left arrow has
    been emitted; nor has one when escape is pressed first. *)
Lemma held_key_not_released_at_exit :
  left_key_held (globals_after (dispatch (yaw (-120))) (rested Q swivel)) = true
  /\ main (map Osc (at_rest ++ [yaw (-120)]) ++ [Interrupt]) (initial (R:=Q) swivel)
     = (Returned Exited,
        globals_after (dispatch (yaw (-120))) (rested Q swivel),
        [Press Key.left])
  /\ main (map Osc (at_rest ++ [yaw (-120)]) ++ [Key_pressed Key.esc; Interrupt])
          (initial (R:=Q) swivel)
     = (Returned Exited,
        globals_after (dispatch (yaw (-120))) (rested Q swivel),
        [Press Key.left])
  /\ ~ In (Release Key.left)
          (emitted (main (map Osc (at_rest ++ [yaw (-120)]) ++ [Interrupt]))
                   (initial (R:=Q) swivel)).
Proof.
  split; [reflexivity|]. split; [vm_compute; reflexivity|].
  split; [vm_compute; reflexivity|].
  vm_compute. intros [E|[]]. discriminate.
Qed.

(** C7, amended.  Requesting termination emits no key event and leaves the
    held-key flags alone: the escape handler returns with the globals as they
    were and an empty log, and a whole run of [main] ends with the globals and
    the log of the messages handled before the interrupt.  So a key the
    swivel detector holds when the interrupt comes is still held, unreleased,
    when the process exits. *)
Theorem termination_releases_nothing :
  forall (R : Type) (N : PyNumber R) (inputs : list (stimulus R)) (g : globals R),
    (forall key, emitted (on_key_press key) g = []
                 /\ globals_after (on_key_press key) g = g)
    /\ emitted (main inputs) g = emitted (serve (handled inputs)) g
    /\ globals_after (main inputs) g = globals_after (serve (handled inputs)) g
    /\ (forall before after,
          inputs = map Osc before ++ Interrupt :: after ->
          fst (fst (main inputs g)) = Returned Exited
          /\ emitted (main inputs) g = emitted (serve before) g
          /\ same_hold (globals_after (serve before) g)
                       (globals_after (main inputs) g)).
Proof.
  intros R N inputs g.
  split; [|split; [|split]].
  - intro key. unfold emitted, globals_after.
    now rewrite on_key_press_returns.
  - unfold emitted at 1. now rewrite main_run.
  - unfold globals_after at 1. now rewrite main_run.
  - intros before after ->.
    unfold emitted at 1, globals_after at 2.
    rewrite main_run, handled_until_interrupt, interrupted_by_interrupt.
    cbn [fst snd]. repeat split.
Qed.

Lemma termination_releases_nothing_witness :
  fst (fst (main (map Osc (at_rest ++ [yaw (-120)]) ++ [Interrupt])
                 (initial (R:=float) both)))
  = Returned Exited
  /\ emitted (main (map Osc (at_rest ++ [yaw (-120)]) ++ [Interrupt]))
             (initial (R:=float) both)
     = emitted (serve (at_rest ++ [yaw (-120)])) (initial (R:=float) both)
  /\ same_hold
       (globals_after (serve (at_rest ++ [yaw (-120)])) (initial (R:=float) both))
       (globals_after (main (map Osc (at_rest ++ [yaw (-120)]) ++ [Interrupt]))
                      (initial (R:=float) both)).
Proof.
  apply (proj2 (proj2 (proj2
           (@termination_releases_nothing float float_number
              (map Osc (at_rest ++ [yaw (-120)]) ++ [Interrupt])
              (initial both))))
           (at_rest ++ [yaw (-120)]) []).
  reflexivity.
Defined.

(** * Further properties of the handlers *)

(** ** The connection monitor *)

Section Connection.

Context {R : Type} `{PyNumber R}.




End Connection.


(** ** What a message can emit *)

Section Emission.

Context {R : Type} `{PyNumber R}.

Lemma dispatch_blink_emitted blink (g : globals R) :
  emitted (dispatch (Muse_blink blink)) g
  = emitted (blink_handler blink) (globals_after connection_monitor g).
Proof.
  cbn [dispatch]. rewrite !emitted_bind, ?globals_after_bind.
  now rewrite connection_monitor_emitted.
Qed.

Lemma dispatch_jaw_clench_emitted jaw_clench (g : globals R) :
  emitted (dispatch (Muse_jaw_clench jaw_clench)) g
  = emitted (jaw_clench_handler jaw_clench) (globals_after connection_monitor g).
Proof.
  cbn [dispatch]. rewrite !emitted_bind, ?globals_after_bind.
  now rewrite connection_monitor_emitted.
Qed.

Lemma dispatch_other_emitted (g : globals R) :
  emitted (dispatch Muse_other) g = [].
Proof.
  cbn [dispatch]. rewrite !emitted_bind.
  now rewrite connection_monitor_emitted.
Qed.

(** The log of a message is the log of its last handler, run in globals
    [g1] that have the held-key flags and the control mode of the globals the
    message arrived in, and the [calibrated] flag the message leaves. *)
Lemma dispatch_emitted m (g : globals R) :
  exists g1 : globals R,
    same_hold g g1 /\ same_mode g g1
    /\ calibrated (globals_after (dispatch m) g) = calibrated g1
    /\ held_flag Key.left (globals_after (dispatch m) g)
       = held_flag Key.left
           (match m with
            | Muse_gyro x y z => globals_after (gyroscope_handler x y z) g1
            | _ => g1
            end)
    /\ held_flag Key.right (globals_after (dispatch m) g)
       = held_flag Key.right
           (match m with
            | Muse_gyro x y z => globals_after (gyroscope_handler x y z) g1
            | _ => g1
            end)
    /\ emitted (dispatch m) g
       = match m with
         | Muse_acc x y z => emitted (accelerometer_handler x y z) g1
         | Muse_gyro x y z => emitted (gyroscope_handler x y z) g1
         | Muse_blink blink => emitted (blink_handler blink) g1
         | Muse_jaw_clench jaw_clench => emitted (jaw_clench_handler jaw_clench) g1
         | Muse_other => []
         end.
Proof.
  destruct (connection_monitor_frame g) as (_ & H0 & _ & M0).
  destruct m as [x y z|x y z|b|j|].
  - exists (globals_after (calibration_acc_handler x y z)
              (globals_after connection_monitor g)).
    destruct (calibration_acc_handler_frame x y z
                (globals_after connection_monitor g)) as (_ & H1 & M1).
    rewrite dispatch_acc_emitted, dispatch_acc_globals.
    unfold same_mode in *.
    repeat split; try (eapply same_hold_trans; eassumption); congruence.
  - exists (globals_after (calibration_gyro_handler x y z)
              (globals_after connection_monitor g)).
    destruct (calibration_gyro_handler_frame x y z
                (globals_after connection_monitor g)) as (_ & H1 & M1).
    rewrite dispatch_gyro_emitted, dispatch_gyro_globals.
    destruct (gyroscope_handler_frame x y z
                (globals_after (calibration_gyro_handler x y z)
                   (globals_after connection_monitor g))) as ((C2 & _) & _).
    unfold same_mode in *.
    repeat split; try (eapply same_hold_trans; eassumption); congruence.
  - exists (globals_after connection_monitor g).
    rewrite dispatch_blink_emitted, dispatch_blink_globals.
    repeat split; first [apply H0 | apply M0].
  - exists (globals_after connection_monitor g).
    rewrite dispatch_jaw_clench_emitted, dispatch_jaw_clench_globals.
    repeat split; first [apply H0 | apply M0].
  - exists (globals_after connection_monitor g).
    rewrite dispatch_other_emitted, dispatch_other_globals.
    repeat split; first [apply H0 | apply M0].
Qed.

End Emission.

(** ** Silent detectors *)

Section Silent.

Context {R : Type} `{PyNumber R}.

Lemma accelerometer_handler_silent x y z (g : globals R) :
  CONTROL_MODE g = swivel \/ calibrated g = false ->
  emitted (accelerometer_handler x y z) g = [].
Proof.
  destruct g as [o l r m c bx by_ bz cd]; cbn [CONTROL_MODE calibrated].
  intros [-> | ->]; [|destruct m]; reflexivity.
Qed.

Lemma gyroscope_handler_silent x y z (g : globals R) :
  CONTROL_MODE g = tilt \/ calibrated g = false ->
  gyroscope_handler x y z g = (tt, g, []).
Proof.
  destruct g as [o l r m c bx by_ bz cd]; cbn [CONTROL_MODE calibrated].
  intros [-> | ->]; [|destruct m]; reflexivity.
Qed.

(** The gyroscope handler only ever touches the left and right arrows. *)
Lemma gyroscope_handler_keys x y z (g : globals R) :
  Forall (fun a => is_arrow_event a = true) (emitted (gyroscope_handler x y z) g).
Proof.
  destruct g as [o [] [] m c bx by_ bz cd];
    unfold gyroscope_handler; split_ifs;
    repeat first [apply Forall_nil | apply Forall_cons]; reflexivity.
Qed.

Lemma accelerometer_handler_arrows x y z (g : globals R) :
  Forall (fun a => is_arrow_event a = true) (emitted (accelerometer_handler x y z) g).
Proof.
  unfold accelerometer_handler; split_ifs;
    repeat first [apply Forall_nil | apply Forall_cons]; reflexivity.
Qed.

(** A message that leaves the calibration incomplete emits no arrow event. *)
Lemma dispatch_uncalibrated_no_arrows m (g : globals R) :
  calibrated (globals_after (dispatch m) g) = false ->
  Forall (fun a => is_arrow_event a = false) (emitted (dispatch m) g).
Proof.
  intro C.
  destruct (dispatch_emitted m g) as (g1 & _ & _ & C1 & _ & _ & ->).
  rewrite C in C1. symmetry in C1.
  destruct m as [x y z|x y z|[]|[]|].
  - rewrite accelerometer_handler_silent by auto. constructor.
  - unfold emitted. rewrite gyroscope_handler_silent by auto. constructor.
  - repeat constructor.
  - constructor.
  - repeat constructor.
  - constructor.
  - constructor.
Qed.

(** No message emits an event on a key other than space, up, left and
    right. *)
Lemma dispatch_keys m (g : globals R) :
  Forall (fun a => key_of a <> Some Key.down /\ key_of a <> Some Key.esc)
         (emitted (dispatch m) g).
Proof.
  destruct (dispatch_emitted m g) as (g1 & _ & _ & _ & _ & _ & ->).
  assert (arrows : forall log : list (action R),
             Forall (fun a => is_arrow_event a = true) log ->
             Forall (fun a => key_of a <> Some Key.down
                              /\ key_of a <> Some Key.esc) log).
  { intros log F. eapply Forall_impl; [|exact F].
    intros [[]|[]|s]; cbn; intro E; try discriminate; split; discriminate. }
  destruct m as [x y z|x y z|[]|[]|].
  - apply arrows, accelerometer_handler_arrows.
  - apply arrows, gyroscope_handler_keys.
  - repeat constructor; discriminate.
  - constructor.
  - repeat constructor; discriminate.
  - constructor.
  - constructor.
Qed.

End Silent.

(** X2.  Until calibration is complete the motion detectors are silent:
    whatever the control mode and the globals a run starts from, if
    [calibrated] is still false when the run ends, the run has emitted no
    press or release of the left or right arrow (blinks and jaw clenches are
    all it can have emitted). *)
Theorem no_arrow_events_before_calibration :
  forall (R : Type) (N : PyNumber R) (ms : list (message R)) (g : globals R),
    calibrated (globals_after (serve ms) g) = false ->
    Forall (fun a => is_arrow_event a = false) (emitted (serve ms) g).
Proof.
  intros R N ms; induction ms as [|m ms IH]; intros g C.
  - constructor.
  - rewrite globals_after_serve_cons in C. rewrite emitted_serve_cons.
    apply Forall_app. split.
    + apply dispatch_uncalibrated_no_arrows.
      destruct (calibrated (globals_after (dispatch m) g)) eqn:E; [|reflexivity].
      rewrite (serve_calibrated_stays ms _ E) in C. discriminate.
    + apply IH, C.
Qed.

Lemma no_arrow_events_before_calibration_witness :
  Forall (fun a => is_arrow_event a = false)
         (emitted (serve [Muse_acc 0 0.9 1; Muse_gyro 0 0 (-500);
                          Muse_blink true; Muse_acc 0 (-0.9) 1])
                  (initial (R:=Q) both)).
Proof.
  apply (@no_arrow_events_before_calibration Q Q_number). reflexivity.
Defined.

(** X3.  No run ever emits an event on the down arrow or on escape: the keys
    the handlers press and release are space, up, left and right. *)
Theorem only_four_keys_are_used :
  forall (R : Type) (N : PyNumber R) (ms : list (message R)) (g : globals R),
    Forall (fun a => key_of a <> Some Key.down /\ key_of a <> Some Key.esc)
           (emitted (serve ms) g).
Proof.
  intros R N ms; induction ms as [|m ms IH]; intro g.
  - constructor.
  - rewrite emitted_serve_cons. apply Forall_app. split.
    + apply dispatch_keys.
    + apply IH.
Qed.

(** ** More on calibration *)

(** X4.  The calibration buffers never outgrow their window: after any run
    from the start, the accelerometer buffers hold the same number of values,
    the smaller of [CALIBRATION_SAMPLES] and the number of accelerometer
    samples received, and the gyroscope buffer the smaller of
    [CALIBRATION_SAMPLES] and the number of gyroscope samples received. *)
Theorem calibration_buffers_bounded :
  forall (R : Type) (N : PyNumber R) (mode : control_mode) (ms : list (message R)),
    let d := calibration_data (globals_after (serve ms) (initial mode)) in
    length (acc_x d) = Nat.min CALIBRATION_SAMPLES (length (acc_xs ms))
    /\ length (acc_y d) = length (acc_x d)
    /\ length (gyro_z d) = Nat.min CALIBRATION_SAMPLES (length (gyro_zs ms))
    /\ (length (acc_x d) <= CALIBRATION_SAMPLES)%nat
    /\ (length (gyro_z d) <= CALIBRATION_SAMPLES)%nat.
Proof.
  intros R N mode ms d.
  destruct (calibration_from_start mode ms) as (AX & AY & GZ & _).
  fold d in AX, AY, GZ.
  rewrite AX, AY, GZ, !length_firstn, acc_ys_length.
  repeat split; lia.
Qed.

Lemma full_window_iff_enough (A : Type) (n : nat) (l l' : list A) :
  firstn n l = firstn n l' ->
  (n <=? length l)%nat = (n <=? length l')%nat.
Proof.
  intro E. apply (f_equal (@length A)) in E. rewrite !length_firstn in E.
  destruct (Nat.leb_spec n (length l)), (Nat.leb_spec n (length l'));
    try reflexivity; lia.
Qed.

(** X5.  Only the first [CALIBRATION_SAMPLES] samples of each sensor count:
    two runs from the start (in whatever modes) whose first
    [CALIBRATION_SAMPLES] accelerometer x and y values and gyroscope z values
    agree end with the same [calibrated] flag, the same baselines and the same
    buffers, whatever else the runs contain. *)
Theorem calibration_reads_first_samples_only :
  forall (R : Type) (N : PyNumber R) (mode mode' : control_mode)
         (ms ms' : list (message R)),
    firstn CALIBRATION_SAMPLES (acc_xs ms) = firstn CALIBRATION_SAMPLES (acc_xs ms') ->
    firstn CALIBRATION_SAMPLES (acc_ys ms) = firstn CALIBRATION_SAMPLES (acc_ys ms') ->
    firstn CALIBRATION_SAMPLES (gyro_zs ms) = firstn CALIBRATION_SAMPLES (gyro_zs ms') ->
    same_calibration (globals_after (serve ms) (initial mode))
                     (globals_after (serve ms') (initial mode')).
Proof.
  intros R N mode mode' ms ms' EX EY EZ.
  destruct (calibration_from_start mode ms)
    as (AX & AY & GZ & C & BX & BY & BZ).
  destruct (calibration_from_start mode' ms')
    as (AX' & AY' & GZ' & C' & BX' & BY' & BZ').
  pose proof (full_window_iff_enough _ _ _ EX) as FX.
  pose proof (full_window_iff_enough _ _ _ EZ) as FZ.
  assert (D : calibration_data (globals_after (serve ms') (initial mode'))
              = calibration_data (globals_after (serve ms) (initial mode))).
  { destruct (calibration_data (globals_after (serve ms') (initial mode'))),
      (calibration_data (globals_after (serve ms) (initial mode))).
    cbn [acc_x acc_y gyro_z] in *. congruence. }
  unfold same_calibration.
  rewrite C, C', BX, BX', BY, BY', BZ, BZ', <- FX, <- FZ, <- EX, <- EY, <- EZ.
  repeat split. exact D.
Qed.

Lemma calibration_reads_first_samples_only_witness :
  same_calibration
    (globals_after (serve warm_up) (initial tilt))
    (globals_after (serve (warm_up ++ [Muse_acc 7 8 9; Muse_gyro 1 2 300]))
                   (initial both)).
Proof.
  apply (@calibration_reads_first_samples_only Q Q_number tilt both warm_up
           (warm_up ++ [Muse_acc 7 8 9; Muse_gyro 1 2 300]));
    vm_compute; reflexivity.
Defined.

(** X6.  Calibration needs both sensors, whatever the control mode: in a run
    from the start in which one of the two sensors sends no sample at all,
    [calibrated] stays false, so no left or right arrow event is ever
    emitted (a tilt-only run without gyroscope data never steers). *)
Theorem one_sensor_alone_never_steers :
  forall (R : Type) (N : PyNumber R) (mode : control_mode) (ms : list (message R)),
    acc_xs ms = [] \/ gyro_zs ms = [] ->
    calibrated (globals_after (serve ms) (initial mode)) = false
    /\ Forall (fun a => is_arrow_event a = false)
              (emitted (serve ms) (initial mode)).
Proof.
  intros R N mode ms E.
  assert (C : calibrated (globals_after (serve ms) (initial mode)) = false).
  { destruct (calibration_from_start mode ms) as (_ & _ & _ & C & _).
    rewrite C. destruct E as [-> | ->]; [reflexivity | apply andb_false_r]. }
  split; [exact C|].
  revert C. generalize (initial (R:=R) mode).
  induction ms as [|m ms IH]; intros g C.
  - constructor.
  - rewrite globals_after_serve_cons in C. rewrite emitted_serve_cons.
    apply Forall_app. split.
    + apply dispatch_uncalibrated_no_arrows.
      destruct (calibrated (globals_after (dispatch m) g)) eqn:F; [|reflexivity].
      rewrite (serve_calibrated_stays ms _ F) in C. discriminate.
    + apply IH; [|exact C].
      clear -E. unfold acc_xs, gyro_zs in *. cbn [flat_map] in E.
      destruct E as [E|E]; apply app_eq_nil in E; tauto.
Qed.

Lemma one_sensor_alone_never_steers_witness :
  calibrated (globals_after
                (serve (repeat (Muse_acc 0 0.9 1) 40))
                (initial (R:=Q) tilt)) = false
  /\ Forall (fun a => is_arrow_event a = false)
            (emitted (serve (repeat (Muse_acc 0 0.9 1) 40))
                     (initial (R:=Q) tilt)).
Proof.
  apply (@one_sensor_alone_never_steers Q Q_number tilt
           (repeat (Muse_acc 0 0.9 1) 40)).
  right. reflexivity.
Defined.

(** ** The log of a swivel-only run *)

Section SwivelLog.

Context {R : Type} `{PyNumber R}.







End SwivelLog.


(** ** What a run leaves alone *)

Section RunFrames.

Context {R : Type} `{PyNumber R}.

Lemma serve_same_mode ms (g : globals R) :
  CONTROL_MODE (globals_after (serve ms) g) = CONTROL_MODE g.
Proof.
  revert g; induction ms as [|m ms IH]; intro g; [reflexivity|].
  now rewrite globals_after_serve_cons, IH, dispatch_same_mode.
Qed.

Lemma dispatch_same_hold m (g : globals R) :
  (match m with Muse_gyro _ _ _ => CONTROL_MODE g = tilt | _ => True end) ->
  same_hold g (globals_after (dispatch m) g).
Proof.
  intro Hm.
  destruct (dispatch_emitted m g) as (g1 & [L1 R1] & M1 & _ & L & Rt & _).
  cbn [held_flag] in L, Rt.
  destruct m as [x y z|x y z|b|j|]; try (split; congruence).
  assert (S : gyroscope_handler x y z g1 = (tt, g1, [])).
  { apply gyroscope_handler_silent. left.
    unfold same_mode in M1. congruence. }
  unfold globals_after at 2 in L. unfold globals_after at 2 in Rt.
  rewrite S in L, Rt. cbn [fst snd] in L, Rt. split; congruence.
Qed.

End RunFrames.

(** X8.  No message changes [CONTROL_MODE], and only gyroscope messages
    change the held-key flags: a run without gyroscope messages, from any
    globals, ends with [left_key_held] and [right_key_held] as they were. *)
Theorem only_gyroscope_messages_change_holds :
  forall (R : Type) (N : PyNumber R) (ms : list (message R)) (g : globals R),
    CONTROL_MODE (globals_after (serve ms) g) = CONTROL_MODE g
    /\ (forallb (fun m => negb (is_gyro m)) ms = true ->
        same_hold g (globals_after (serve ms) g)).
Proof.
  intros R N ms g. split; [apply serve_same_mode|].
  revert g; induction ms as [|m ms IH]; intros g F.
  - apply same_hold_refl.
  - cbn [forallb] in F. apply andb_prop in F. destruct F as [Fm F].
    rewrite globals_after_serve_cons.
    apply same_hold_trans with (globals_after (dispatch m) g); [|apply IH, F].
    apply dispatch_same_hold. destruct m; try exact I. discriminate.
Qed.

(** X9.  The control mode excludes a detector for the whole run.  Started
    without [--mode], or with [--mode tilt], the program never sets a
    held-key flag and no gyroscope message ever emits a key event; started
    with [--mode swivel], no accelerometer message ever emits a key event. *)
Theorem mode_excludes_detector_throughout :
  forall (R : Type) (N : PyNumber R) (ms : list (message R)) (x y z : R),
    (forall mode_arg, mode_arg = None \/ mode_arg = Some tilt ->
       left_key_held (globals_after (serve ms) (initial (configure mode_arg))) = false
       /\ right_key_held (globals_after (serve ms) (initial (configure mode_arg))) = false
       /\ emitted (dispatch (Muse_gyro x y z))
                  (globals_after (serve ms) (initial (configure mode_arg))) = [])
    /\ emitted (dispatch (Muse_acc x y z))
               (globals_after (serve ms) (initial (configure (Some swivel)))) = [].
Proof.
  intros R N ms x y z. split.
  - intros mode_arg Hm.
    assert (E : configure mode_arg = tilt) by (destruct Hm; subst; reflexivity).
    rewrite E. clear E Hm mode_arg.
    assert (Hold : forall (l : list (message R)) (g : globals R),
               CONTROL_MODE g = tilt -> same_hold g (globals_after (serve l) g)).
    { induction l as [|m l IH]; intros g M.
      - apply same_hold_refl.
      - rewrite globals_after_serve_cons.
        apply same_hold_trans with (globals_after (dispatch m) g).
        + apply dispatch_same_hold. destruct m; auto.
        + apply IH. now rewrite dispatch_same_mode. }
    destruct (Hold ms (initial tilt) eq_refl) as [L Rt].
    cbn [initial left_key_held right_key_held] in L, Rt.
    split; [exact L|]. split; [exact Rt|].
    destruct (dispatch_emitted (Muse_gyro x y z)
                (globals_after (serve ms) (initial tilt)))
      as (g1 & _ & M1 & _ & _ & _ & ->).
    unfold same_mode in M1. rewrite serve_same_mode in M1.
    unfold emitted. now rewrite gyroscope_handler_silent by auto.
  - destruct (dispatch_emitted (Muse_acc x y z)
                (globals_after (serve ms) (initial (configure (Some swivel)))))
      as (g1 & _ & M1 & _ & _ & _ & ->).
    unfold same_mode in M1. rewrite serve_same_mode in M1.
    now rewrite accelerometer_handler_silent by auto.
Qed.

(** X10.  The tilt detector has no memory: once calibration is complete, what
    an accelerometer message emits is the same whatever messages were handled
    in between (a second sample on the same side presses the key again, no
    release in between). *)
Theorem tilt_detector_has_no_memory :
  forall (R : Type) (N : PyNumber R) (g : globals R) (ms : list (message R))
         (x y z : R),
    calibrated g = true ->
    emitted (dispatch (Muse_acc x y z)) (globals_after (serve ms) g)
    = emitted (dispatch (Muse_acc x y z)) g.
Proof.
  intros R N g ms x y z C.
  rewrite !dispatch_acc_calibrated
    by first [exact C | apply serve_calibrated_stays, C].
  apply accelerometer_handler_reads.
  - apply serve_same_mode.
  - apply serve_calibrated_frozen, C.
Qed.

Lemma tilt_detector_has_no_memory_witness :
  emitted (dispatch (roll 0.2))
          (globals_after (serve [roll 0.2; yaw (-120); roll (-0.3)])
                         (rested Q both))
  = emitted (dispatch (roll 0.2)) (rested Q both).
Proof.
  apply (@tilt_detector_has_no_memory Q Q_number (rested Q both)).
  reflexivity.
Defined.

(** ** The swivel detector latches *)

Section Latch.

Context {R : Type} `{PyNumber R}.

Lemma same_hold_sym (g g' : globals R) : same_hold g g' -> same_hold g' g.
Proof. intros [L Rt]; split; congruence. Qed.

Lemma same_calibration_sym (g g' : globals R) :
  same_calibration g g' -> same_calibration g' g.
Proof. intros (A & B & C & D & E); repeat split; congruence. Qed.

(** A second look at the same reading changes nothing. *)
Lemma gyroscope_handler_twice x y z (g : globals R) :
  emitted (gyroscope_handler x y z) (globals_after (gyroscope_handler x y z) g) = []
  /\ globals_after (gyroscope_handler x y z) (globals_after (gyroscope_handler x y z) g)
     = globals_after (gyroscope_handler x y z) g.
Proof.
  destruct g as [o l r m c bx by_ bz cd].
  destruct (ltb (sub z bz) (neg SWIVEL_THRESHOLD)) eqn:E1,
    (gtb (sub z bz) SWIVEL_THRESHOLD) eqn:E2,
    (ltb (abs (sub z bz)) SWIVEL_RELEASE_THRESHOLD) eqn:E3;
    destruct l, r, m, c; unfold gyroscope_handler;
    repeat (progress (eff_unfold; cbn [control_mode_eqb]; rewrite ?E1, ?E2, ?E3));
    split; reflexivity.
Qed.

End Latch.

(** X11.  The swivel detector latches instead of repeating: once calibration
    is complete, a gyroscope message that arrives a second time in a row
    emits nothing and leaves the held-key flags as the first one set them. *)
Theorem repeated_gyroscope_sample_is_silent :
  forall (R : Type) (N : PyNumber R) (g : globals R) (x y z : R),
    calibrated g = true ->
    emitted (dispatch (Muse_gyro x y z))
            (globals_after (dispatch (Muse_gyro x y z)) g) = []
    /\ same_hold (globals_after (dispatch (Muse_gyro x y z)) g)
                 (globals_after (dispatch (Muse_gyro x y z))
                    (globals_after (dispatch (Muse_gyro x y z)) g)).
Proof.
  intros R N g x y z C.
  set (h := gyroscope_handler x y z).
  set (g1 := globals_after (dispatch (Muse_gyro x y z)) g).
  destruct (dispatch_gyro_calibrated x y z g C) as (_ & H1). fold h g1 in H1.
  pose proof (dispatch_calibrated_frozen (Muse_gyro x y z) g C) as F1. fold g1 in F1.
  assert (C1 : calibrated g1 = true) by (destruct F1 as [E _]; congruence).
  destruct (dispatch_gyro_calibrated x y z g1 C1) as (E2 & H2). fold h in E2, H2.
  destruct (gyroscope_handler_frame x y z g) as (Fh & Mh). fold h in Fh, Mh.
  destruct (gyroscope_handler_twice x y z g) as (T1 & T2). fold h in T1, T2.
  assert (M : same_mode (globals_after h g) g1).
  { unfold same_mode in *. subst g1. rewrite dispatch_same_mode. congruence. }
  assert (S : same_calibration (globals_after h g) g1).
  { eapply same_calibration_trans; [apply same_calibration_sym, Fh | exact F1]. }
  destruct (gyroscope_handler_reads x y z M S H1)
    as (E3 & H3). fold h in E3, H3.
  rewrite T2 in H3. rewrite E2, E3, T1. split; [reflexivity|].
  apply same_hold_trans with (globals_after h g1); [|exact H2].
  apply same_hold_trans with (globals_after h g);
    [apply same_hold_sym, H1 | exact H3].
Qed.

Lemma repeated_gyroscope_sample_is_silent_witness :
  emitted (dispatch (yaw (-120)))
          (globals_after (dispatch (yaw (-120))) (rested float swivel)) = []
  /\ same_hold (globals_after (dispatch (yaw (-120))) (rested float swivel))
               (globals_after (dispatch (yaw (-120)))
                  (globals_after (dispatch (yaw (-120))) (rested float swivel))).
Proof.
  apply (@repeated_gyroscope_sample_is_silent float float_number
           (rested float swivel)).
  vm_compute. reflexivity.
Defined.

(** ** The escape key *)

Section Escape.

Context {R : Type} `{PyNumber R}.

Lemma handled_without_keys (inputs : list (stimulus R)) :
  handled (without_keys inputs) = handled inputs.
Proof.
  induction inputs as [|[m|key|] inputs IH]; cbn [without_keys filter handled];
    try reflexivity.
  - fold (without_keys inputs). now rewrite IH.
  - exact IH.
Qed.

Lemma interrupted_without_keys (inputs : list (stimulus R)) :
  interrupted (without_keys inputs) = interrupted inputs.
Proof.
  unfold interrupted.
  induction inputs as [|[m|key|] inputs IH];
    cbn [without_keys filter existsb orb]; try reflexivity; exact IH.
Qed.

End Escape.

(** X12.  Key presses seen by the listener, escape included, change nothing:
    a run of [main] gives the same result, globals and log as the run with
    the key presses left out, and with no interrupt among the inputs the
    process is still serving at the end (escape alone does not stop it: the
    [SystemExit] it raises is caught by the handler's own [except]). *)
Theorem key_presses_do_not_stop_the_program :
  forall (R : Type) (N : PyNumber R) (inputs : list (stimulus R)) (g : globals R),
    main inputs g = main (without_keys inputs) g
    /\ (interrupted inputs = false ->
        fst (fst (main inputs g)) = Returned Serving).
Proof.
  intros R N inputs g. rewrite !main_run.
  rewrite handled_without_keys, interrupted_without_keys.
  split; [reflexivity|]. intros ->. reflexivity.
Qed.

Lemma key_presses_do_not_stop_the_program_witness :
  fst (fst (main [Osc (yaw (-120)); Key_pressed Key.esc; Osc (Muse_blink true)]
                 (rested Q swivel)))
  = Returned Serving.
Proof.
  apply (@key_presses_do_not_stop_the_program Q Q_number).
  reflexivity.
Defined.

(** ** Baselines over the rationals *)






(** ** Both detectors at once *)

Section Both.

Context {R : Type} `{PyNumber R}.

Lemma accelerometer_handler_center x y z (g : globals R) :
  detector_active Tilt_detector g = true ->
  ltb (sub y (baseline_acc_y g)) (neg TILT_THRESHOLD) = false ->
  gtb (sub y (baseline_acc_y g)) TILT_THRESHOLD = false ->
  emitted (accelerometer_handler x y z) g
  = [Release Key.left; Release Key.right].
Proof.
  intros A L G. destruct (detector_active_tilt g A) as [M C].
  unfold accelerometer_handler.
  repeat (progress (eff_unfold; rewrite ?M, ?C, ?L, ?G)).
  reflexivity.
Qed.

End Both.

(** X14.  In mode both the tilt detector can undo a swivel hold without the
    swivel detector noticing.  With calibration complete and left held by the
    swivel detector, an accelerometer sample within the tilt threshold
    releases the left arrow (and right) but leaves [left_key_held] true; a
    gyroscope sample still left of [-SWIVEL_THRESHOLD] that follows then
    emits nothing, so the left arrow stays up while the flag says held. *)
Theorem tilt_release_undoes_swivel_hold :
  forall (R : Type) (N : PyNumber R) (g : globals R) (x y z x' y' z' : R),
    CONTROL_MODE g = both -> calibrated g = true ->
    left_key_held g = true -> right_key_held g = false ->
    ltb (sub y (baseline_acc_y g)) (neg TILT_THRESHOLD) = false ->
    gtb (sub y (baseline_acc_y g)) TILT_THRESHOLD = false ->
    ltb (sub z' (baseline_gyro_z g)) (neg SWIVEL_THRESHOLD) = true ->
    emitted (serve [Muse_acc x y z; Muse_gyro x' y' z']) g
    = [Release Key.left; Release Key.right]
    /\ key_state Key.left true
         (emitted (serve [Muse_acc x y z; Muse_gyro x' y' z']) g) = false
    /\ left_key_held (globals_after (serve [Muse_acc x y z; Muse_gyro x' y' z']) g)
       = true.
Proof.
  intros R N g x y z x' y' z' M C L Rt TL TG SL.
  set (g1 := globals_after (dispatch (Muse_acc x y z)) g).
  assert (A : detector_active Tilt_detector g = true)
    by (unfold detector_active; now rewrite M, C).
  assert (E1 : emitted (dispatch (Muse_acc x y z)) g
               = [Release Key.left; Release Key.right]).
  { rewrite dispatch_acc_calibrated by exact C.
    now apply accelerometer_handler_center. }
  destruct (dispatch_same_hold (Muse_acc x y z) g I) as [L1 R1].
  fold g1 in L1, R1.
  destruct (dispatch_calibrated_frozen (Muse_acc x y z) g C)
    as (C1 & _ & _ & BZ & _).
  fold g1 in C1, BZ.
  pose proof (dispatch_same_mode (Muse_acc x y z) g) as M1. fold g1 in M1.
  assert (A1 : detector_active Swivel_detector g1 = true)
    by (unfold detector_active; now rewrite M1, M, C1, C).
  assert (SL1 : ltb (sub z' (baseline_gyro_z g1)) (neg SWIVEL_THRESHOLD) = true)
    by (now rewrite BZ).
  destruct (gyroscope_handler_left g1 x' y' z' A1 SL1) as (O & L2 & _).
  rewrite L1, L, R1, Rt in O. cbn [app] in O.
  destruct (dispatch_gyro_calibrated x' y' z' g1) as (E2 & L3 & _);
    [congruence|].
  assert (E : emitted (serve [Muse_acc x y z; Muse_gyro x' y' z']) g
              = [Release Key.left; Release Key.right]).
  { rewrite !emitted_serve_cons. fold g1. rewrite E1, E2, O. reflexivity. }
  rewrite E. split; [reflexivity|]. split; [reflexivity|].
  rewrite !globals_after_serve_cons. fold g1.
  cbn [serve ret globals_after fst snd]. fold (globals_after (dispatch (Muse_gyro x' y' z')) g1).
  congruence.
Qed.

Lemma tilt_release_undoes_swivel_hold_witness :
  emitted (serve [roll 0; yaw (-120)])
          (globals_after (dispatch (yaw (-120))) (rested Q both))
  = [Release Key.left; Release Key.right]
  /\ key_state Key.left true
       (emitted (serve [roll 0; yaw (-120)])
                (globals_after (dispatch (yaw (-120))) (rested Q both))) = false
  /\ left_key_held
       (globals_after (serve [roll 0; yaw (-120)])
          (globals_after (dispatch (yaw (-120))) (rested Q both))) = true.
Proof.
  apply (@tilt_release_undoes_swivel_hold Q Q_number
           (globals_after (dispatch (yaw (-120))) (rested Q both)));
    reflexivity.
Defined.

(** ** The sample that completes calibration *)

Section Completing.

Context {R : Type} `{PyNumber R}.

(** An active tilt detector emits something on every sample. *)
Lemma accelerometer_handler_speaks x y z (g : globals R) :
  detector_active Tilt_detector g = true ->
  emitted (accelerometer_handler x y z) g <> [].
Proof.
  intro A. destruct (detector_active_tilt g A) as [M C].
  unfold accelerometer_handler.
  repeat (progress (eff_unfold; rewrite ?M, ?C)).
  split_ifs; discriminate.
Qed.

End Completing.

(** X15.  The accelerometer sample that completes calibration is steered by
    at once: when a run from the start has stored all gyroscope samples and
    all but one accelerometer sample, [calibrated] is false, and in mode tilt
    or both the next accelerometer message both sets it and already emits a
    key event, judged against the baseline that includes that very sample. *)
Theorem completing_sample_is_acted_on :
  forall (R : Type) (N : PyNumber R) (mode : control_mode)
         (ms : list (message R)) (x y z : R),
    mode <> swivel ->
    S (length (acc_xs ms)) = CALIBRATION_SAMPLES ->
    (CALIBRATION_SAMPLES <= length (gyro_zs ms))%nat ->
    let g := globals_after (serve ms) (initial mode) in
    calibrated g = false
    /\ calibrated (globals_after (dispatch (Muse_acc x y z)) g) = true
    /\ baseline_acc_y (globals_after (dispatch (Muse_acc x y z)) g)
       = mean (acc_ys ms ++ [y])
    /\ emitted (dispatch (Muse_acc x y z)) g
       = emitted (accelerometer_handler x y z)
                 (globals_after (dispatch (Muse_acc x y z)) g)
    /\ emitted (dispatch (Muse_acc x y z)) g <> [].
Proof.
  intros R N mode ms x y z Hm LA LG g.
  destruct (calibration_from_start mode ms) as (_ & _ & _ & C & _).
  fold g in C.
  pose proof (calibration_from_start mode (ms ++ [Muse_acc x y z])) as F.
  rewrite globals_after_serve_app in F. fold g in F.
  change (globals_after (serve [Muse_acc x y z]) g)
    with (globals_after (dispatch (Muse_acc x y z) ;; ret tt) g) in F.
  rewrite globals_after_bind in F.
  change (globals_after (ret tt) ?a) with a in F.
  destruct F as (_ & _ & _ & C' & _ & BY & _).
  rewrite acc_xs_app, acc_ys_app, gyro_zs_app in *.
  change (acc_xs [Muse_acc x y z]) with [x] in *.
  change (acc_ys [Muse_acc x y z]) with [y] in *.
  change (gyro_zs [Muse_acc x y z]) with (@nil R) in *.
  rewrite app_nil_r, length_app in *. cbn [length] in *.
  pose proof (acc_ys_length ms) as LY.
  assert (E1 : (CALIBRATION_SAMPLES <=? length (acc_xs ms))%nat = false)
    by (apply Nat.leb_gt; lia).
  assert (E2 : (CALIBRATION_SAMPLES <=? length (acc_xs ms) + 1)%nat = true)
    by (apply Nat.leb_le; lia).
  assert (E3 : (CALIBRATION_SAMPLES <=? length (gyro_zs ms))%nat = true)
    by (apply Nat.leb_le; lia).
  rewrite E1 in C. rewrite E2, E3 in C'. rewrite E2 in BY.
  rewrite firstn_all2 in BY by (rewrite length_app; cbn [length]; lia).
  split; [exact C|]. split; [exact C'|]. split; [exact BY|].
  split; [apply dispatch_acc_emitted|].
  rewrite dispatch_acc_emitted.
  apply accelerometer_handler_speaks.
  unfold detector_active. rewrite C', dispatch_same_mode.
  subst g. rewrite serve_same_mode. cbn [initial CONTROL_MODE].
  destruct mode; try reflexivity. now elim Hm.
Qed.

Lemma completing_sample_is_acted_on_witness :
  calibrated (globals_after
                (serve (repeat (Muse_gyro 0 0 5) 30 ++ repeat (Muse_acc 0 0 1) 29))
                (initial (R:=Q) tilt)) = false
  /\ emitted (dispatch (Muse_acc 0 3 1))
             (globals_after
                (serve (repeat (Muse_gyro 0 0 5) 30 ++ repeat (Muse_acc 0 0 1) 29))
                (initial (R:=Q) tilt))
     <> [].
Proof.
  destruct (@completing_sample_is_acted_on Q Q_number tilt
              (repeat (Muse_gyro 0 0 5) 30 ++ repeat (Muse_acc 0 0 1) 29)
              0 3 1)
    as (A & _ & _ & _ & B).
  - discriminate.
  - reflexivity.
  - apply Nat.leb_le. reflexivity.
  - split; assumption.
Defined.
